(** * Barber-shop booking engine: availability, conflict check, next free slot

    A shallow embedding of [models.py] and [booking_manager.py] and the
    properties of the availability and booking engine.

    Conventions of the embedding.
    - A calendar [date] is its proleptic Gregorian ordinal
      ([date.toordinal()]): day 1 is 0001-01-01, a Monday, and
      [max_ordinal] is 9999-12-31.
    - A [time] of day is the number of minutes after midnight.  Every time
      the program stores comes from [strptime(_, "%H:%M")], so minutes are
      the finest grain that occurs; a Python [time] lies in 0..1439, which
      theorems state as [valid_time] where they depend on it.
    - A [datetime] is the absolute minute count [date * 1440 + time].
      Adding a [timedelta] raises [OverflowError] when the result leaves
      the years 1..9999, as in Python.
    - The SQLAlchemy session is the record [Session] of its four tables,
      each a list in insertion (rowid) order; [session.add] followed by
      [session.commit] appends a row with a fresh primary key.
    - A call either returns or raises: [outcome].  Functions that write
      return the session they leave behind next to the outcome, also when
      they raise. *)

From Equations Require Import Equations.
From Stdlib Require Import ZArith List String Ascii Bool Lia Sorted Permutation.
Import ListNotations.
Open Scope string_scope.
Open Scope Z_scope.
Open Scope list_scope.

(** ** Exceptions and outcomes *)

Inductive exn : Type :=
| ValueError (msg : string)
| OverflowError.

Inductive outcome (A : Type) : Type :=
| Returned (a : A)
| Raised (e : exn).
Arguments Returned {A} a.
Arguments Raised {A} e.

Definition bind {A B : Type} (c : outcome A) (k : A -> outcome B) : outcome B :=
  match c with
  | Returned a => k a
  | Raised e => Raised e
  end.

Notation "x <- c ;; k" := (bind c (fun x => k))
  (at level 61, c at next level, right associativity).

(** [raise ValueError("Employee not found")] *)
Definition StaffNotFound : exn := ValueError "Employee not found".
(** [raise ValueError("Time slot not available")] *)
Definition SlotUnavailable : exn := ValueError "Time slot not available".
(** The [ValueError] of [datetime.strptime] on a string that does not match
    the format (Python's message also quotes the offending string). *)
Definition InvalidTimeFormat : exn := ValueError "time data does not match format '%H:%M'".

(** ** Dates, times and datetimes *)

Definition date : Type := Z.
Definition time : Type := Z.
Definition datetime : Type := Z.

Definition minutes_per_day : Z := 1440.
Definition max_ordinal : Z := 3652059.

Definition valid_date (d : date) : Prop := 1 <= d <= max_ordinal.
Definition valid_time (t : time) : Prop := 0 <= t < minutes_per_day.

(** [datetime.combine(d, t)] *)
Definition combine (d : date) (t : time) : datetime := d * minutes_per_day + t.

(** [dt.time()] *)
Definition time_of (dt : datetime) : time := dt mod minutes_per_day.

(** The datetimes of the years 1..9999. *)
Definition in_datetime_range (r : datetime) : bool :=
  (1 * minutes_per_day <=? r) && (r <? (max_ordinal + 1) * minutes_per_day).

(** [dt + timedelta(minutes=delta)] *)
Definition datetime_add (dt : datetime) (delta : Z) : outcome datetime :=
  let r := dt + delta in
  if in_datetime_range r then Returned r else Raised OverflowError.

(** [d + timedelta(days=n)] *)
Definition date_add (d : date) (n : Z) : outcome date :=
  let r := d + n in
  if (1 <=? r) && (r <=? max_ordinal) then Returned r else Raised OverflowError.

(** [d.weekday()]: Monday is 0. *)
Definition weekday (d : date) : Z := (d + 6) mod 7.

(** [d.strftime("%a")] in the C locale. *)
Definition strftime_a (d : date) : string :=
  nth (Z.to_nat (weekday d)) ["Mon"; "Tue"; "Wed"; "Thu"; "Fri"; "Sat"; "Sun"] "".

(** [s.split(",")] *)
Fixpoint split_comma (s : string) : list string :=
  match s with
  | EmptyString => [EmptyString]
  | String c rest =>
      if Ascii.eqb c ","%char then EmptyString :: split_comma rest
      else match split_comma rest with
           | h :: t => String c h :: t
           | [] => [String c EmptyString]
           end
  end.

(** [x in xs] / [x not in xs] on a list of strings *)
Definition str_in (x : string) (xs : list string) : bool :=
  existsb (String.eqb x) xs.

Definition digit_of (c : ascii) : option Z :=
  let n := Z.of_N (N_of_ascii c) in
  if (48 <=? n) && (n <=? 57) then Some (n - 48) else None.

(** The [%H] field, [2[0-3]|[0-1]\d|\d], followed by the colon of the
    format: the one-digit alternative when the colon comes second, a
    two-digit one when it comes third.  Returns the hour and what follows the
    colon. *)
Definition parse_H (s : string) : option (Z * string) :=
  match s with
  | String a (String b rest) =>
      if Ascii.eqb b ":"%char
      then match digit_of a with
           | Some x => Some (x, rest)
           | None => None
           end
      else match rest with
           | String c rest' =>
               if Ascii.eqb c ":"%char
               then match digit_of a, digit_of b with
                    | Some x, Some y =>
                        if (x <=? 1) || ((x =? 2) && (y <=? 3))
                        then Some (10 * x + y, rest')
                        else None
                    | _, _ => None
                    end
               else None
           | EmptyString => None
           end
  | _ => None
  end.

(** The [%M] field: [[0-5]\d|\d], first alternative that matches; the
    match must then have consumed the whole string. *)
Definition parse_M (s : string) : option Z :=
  match s with
  | String a EmptyString => digit_of a
  | String a (String b rest) =>
      match digit_of a with
      | Some x =>
          match digit_of b with
          | Some y =>
              if x <=? 5
              then match rest with EmptyString => Some (10 * x + y) | _ => None end
              else None
          | None => None
          end
      | None => None
      end
  | EmptyString => None
  end.

(** [datetime.strptime(s, "%H:%M").time()], on ASCII input. *)
Definition strptime_HM (s : string) : outcome time :=
  match parse_H s with
  | Some (h, rest) =>
      match parse_M rest with
      | Some m => Returned (h * 60 + m)
      | None => Raised InvalidTimeFormat
      end
  | None => Raised InvalidTimeFormat
  end.

(** ** models.py *)

Module Employee.
Record t : Type := mk {
  id : Z;
  shop_id : Z;
  name : string;
  is_active : bool;
  working_days : string;
  start_time : time;
  end_time : time
}.
End Employee.

Module Customer.
Record t : Type := mk {
  id : Z;
  name : string;
  phone : string
}.
End Customer.

Module Service.
Record t : Type := mk {
  id : Z;
  shop_id : Z;
  name : string;
  duration_minutes : Z
}.
End Service.

Module Appointment.
Record t : Type := mk {
  id : Z;
  shop_id : Z;
  employee_id : Z;
  customer_id : Z;
  service_id : option Z;
  appointment_date : date;
  start_time : time;
  end_time : time;
  status : string;
  notes : string
}.
End Appointment.

(** The tables behind [self.session]. *)
Record Session : Type := mkSession {
  employees : list Employee.t;
  customers : list Customer.t;
  services : list Service.t;
  appointments : list Appointment.t
}.

(** The primary key the store assigns to a new row. *)
Definition next_id (ids : list Z) : Z := 1 + fold_right Z.max 0 ids.

(** [session.query(Employee).get(employee_id)] *)
Definition get_employee (s : Session) (employee_id : Z) : option Employee.t :=
  find (fun e => Employee.id e =? employee_id) (employees s).

(** [session.query(Service).get(service_id)] *)
Definition get_service (s : Session) (service_id : Z) : option Service.t :=
  find (fun v => Service.id v =? service_id) (services s).

(** ** booking_manager.py *)

(** A generated slot: the dict with keys [start_time], [end_time],
    [available]. *)
Record Slot : Type := mkSlot {
  slot_start_time : time;
  slot_end_time : time;
  slot_available : bool
}.

(** The dict returned by [get_next_available_slot]; [employee_name] is
    present only in the shop-wide search. *)
Record NextSlot : Type := mkNextSlot {
  ns_employee_id : Z;
  ns_employee_name : option string;
  ns_date : date;
  ns_time : time
}.

(** [register_customer]: the customer with this phone, created if there is
    none. *)
Definition register_customer (s : Session) (name phone : string)
  : Customer.t * Session :=
  match find (fun c => String.eqb (Customer.phone c) phone) (customers s) with
  | Some customer => (customer, s)
  | None =>
      let customer :=
        Customer.mk (next_id (map Customer.id (customers s))) name phone in
      (customer,
       mkSession (employees s) (customers s ++ [customer]) (services s)
                 (appointments s))
  end.

Definition slot_duration : Z := 30.

(** The overlap test of the slot generator:
    [not (slot_end <= appt_start or current_time >= appt_end)]. *)
Definition slot_overlaps (d : date) (current_time slot_end : datetime)
  (appointment : Appointment.t) : bool :=
  let appt_start := combine d (Appointment.start_time appointment) in
  let appt_end := combine d (Appointment.end_time appointment) in
  negb ((slot_end <=? appt_start) || (appt_end <=? current_time)).

(** The inner [for appointment in appointments] with its [break]. *)
Fixpoint is_available (d : date) (current_time slot_end : datetime)
  (appts : list Appointment.t) : bool :=
  match appts with
  | [] => true
  | appointment :: rest =>
      if slot_overlaps d current_time slot_end appointment then false
      else is_available d current_time slot_end rest
  end.

(** The [while current_time + slot_duration <= end_datetime] loop. *)
Equations? slot_loop (appts : list Appointment.t) (d : date)
  (end_datetime current_time : datetime) (time_slots : list Slot)
  : outcome (list Slot)
  by wf (Z.to_nat (end_datetime - current_time)) lt :=
  slot_loop appts d end_datetime current_time time_slots
    with in_datetime_range (current_time + slot_duration) => {
    | false := Raised OverflowError;
    | true with Z_le_gt_dec (current_time + slot_duration) end_datetime => {
      | right _ := Returned time_slots;
      | left _ :=
          let slot_end := current_time + slot_duration in
          slot_loop appts d end_datetime slot_end
            (if is_available d current_time slot_end appts
             then time_slots ++ [mkSlot (time_of current_time) (time_of slot_end) true]
             else time_slots) } }.
Proof. unfold slot_duration in *. lia. Qed.

(** The query of the non-cancelled appointments of an employee on a date. *)
Definition appointments_on (s : Session) (employee_id : Z) (d : date)
  : list Appointment.t :=
  filter (fun a => (Appointment.employee_id a =? employee_id)
                   && (Appointment.appointment_date a =? d)
                   && negb (String.eqb (Appointment.status a) "cancelled"))
         (appointments s).

Definition get_employee_availability (s : Session) (employee_id : Z) (d : date)
  : outcome (list Slot) :=
  match get_employee s employee_id with
  | None => Returned []
  | Some employee =>
      let day_name := strftime_a d in
      if negb (str_in day_name (split_comma (Employee.working_days employee)))
      then Returned []
      else
        let start_time := Employee.start_time employee in
        let end_time := Employee.end_time employee in
        let appts := appointments_on s employee_id d in
        slot_loop appts d (combine d end_time) (combine d start_time) []
  end.

(** Truthiness of an optional integer argument: [if employee_id:]. *)
Definition truthy (x : option Z) : option Z :=
  match x with
  | Some n => if n =? 0 then None else Some n
  | None => None
  end.

(** The filter of the conflict query in [book_appointment]. *)
Definition conflicts (employee_id : Z) (appointment_date : date)
  (start_time_obj end_time_obj : time) (a : Appointment.t) : bool :=
  (Appointment.employee_id a =? employee_id)
  && (Appointment.appointment_date a =? appointment_date)
  && negb (String.eqb (Appointment.status a) "cancelled")
  && (((Appointment.start_time a <=? start_time_obj)
       && (start_time_obj <? Appointment.end_time a))
      || ((Appointment.start_time a <? end_time_obj)
          && (end_time_obj <=? Appointment.end_time a))).

(** The duration of the booked service, 30 minutes by default. *)
Definition booking_duration (s : Session) (service_id : option Z) : Z :=
  match truthy service_id with
  | None => 30
  | Some sid =>
      match get_service s sid with
      | Some service => Service.duration_minutes service
      | None => 30
      end
  end.

(** [book_appointment]; [today] is the value of [date.today()]. *)
Definition book_appointment (today : date) (s : Session) (employee_id : Z)
  (customer_phone customer_name : string) (appointment_date : date)
  (start_time : string) (service_id : option Z) (notes : string)
  : outcome Appointment.t * Session :=
  let '(customer, s1) := register_customer s customer_name customer_phone in
  match get_employee s1 employee_id with
  | None => (Raised StaffNotFound, s1)
  | Some employee =>
      match strptime_HM start_time with
      | Raised e => (Raised e, s1)
      | Returned start_time_obj =>
          let duration := booking_duration s1 service_id in
          match datetime_add (combine today start_time_obj) duration with
          | Raised e => (Raised e, s1)
          | Returned end_datetime =>
              let end_time_obj := time_of end_datetime in
              match find (conflicts employee_id appointment_date
                                    start_time_obj end_time_obj)
                         (appointments s1) with
              | Some conflicting => (Raised SlotUnavailable, s1)
              | None =>
                  let appointment :=
                    Appointment.mk
                      (next_id (map Appointment.id (appointments s1)))
                      (Employee.shop_id employee)
                      employee_id
                      (Customer.id customer)
                      service_id
                      appointment_date
                      start_time_obj
                      end_time_obj
                      "scheduled"
                      notes in
                  (Returned appointment,
                   mkSession (employees s1) (customers s1) (services s1)
                             (appointments s1 ++ [appointment]))
              end
          end
      end
  end.

(** The inner [for emp in employees] of the shop-wide search; [None] when
    the loop runs to its end. *)
Fixpoint first_free_employee (s : Session) (check_date : date)
  (emps : list Employee.t) : outcome (option NextSlot) :=
  match emps with
  | [] => Returned None
  | emp :: rest =>
      slots <- get_employee_availability s (Employee.id emp) check_date ;;
      match slots with
      | slot :: _ =>
          Returned (Some (mkNextSlot (Employee.id emp) (Some (Employee.name emp))
                                     check_date (slot_start_time slot)))
      | [] => first_free_employee s check_date rest
      end
  end.

(** The active employees of a shop. *)
Definition active_employees (s : Session) (shop_id : Z) : list Employee.t :=
  filter (fun e => (Employee.shop_id e =? shop_id) && Employee.is_active e)
         (employees s).

(** The [for days_ahead in range(...)] loop over the remaining values of
    [days_ahead]. *)
Fixpoint next_slot_loop (s : Session) (current_date : date)
  (employee_id shop_id : option Z) (days : list Z) : outcome (option NextSlot) :=
  match days with
  | [] => Returned None
  | days_ahead :: rest =>
      check_date <- date_add current_date days_ahead ;;
      match truthy employee_id with
      | Some eid =>
          slots <- get_employee_availability s eid check_date ;;
          match slots with
          | slot :: _ =>
              Returned (Some (mkNextSlot eid None check_date (slot_start_time slot)))
          | [] => next_slot_loop s current_date employee_id shop_id rest
          end
      | None =>
          match truthy shop_id with
          | Some sid =>
              found <- first_free_employee s check_date (active_employees s sid) ;;
              match found with
              | Some r => Returned (Some r)
              | None => next_slot_loop s current_date employee_id shop_id rest
              end
          | None => next_slot_loop s current_date employee_id shop_id rest
          end
      end
  end.

Definition max_days_ahead : nat := 30.

(** [range(n)] *)
Definition range (n : nat) : list Z := map Z.of_nat (seq 0 n).

(** [get_next_available_slot]; [today] is the value of [date.today()]. *)
Definition get_next_available_slot (today : date) (s : Session)
  (employee_id shop_id : option Z) : outcome (option NextSlot) :=
  next_slot_loop s today employee_id shop_id (range max_days_ahead).

(** ** booking_manager.py, the other operations *)

(** [add_employee].  The keyword arguments its callers pass ([email],
    [specialization]) are columns outside this embedding, as is [phone];
    [is_active] takes its column default. *)
Definition add_employee (s : Session) (shop_id : Z)
  (name phone working_days start_time end_time : string)
  : outcome Employee.t * Session :=
  match strptime_HM start_time with
  | Raised e => (Raised e, s)
  | Returned start_time_obj =>
      match strptime_HM end_time with
      | Raised e => (Raised e, s)
      | Returned end_time_obj =>
          let employee :=
            Employee.mk (next_id (map Employee.id (employees s))) shop_id name
                        true working_days start_time_obj end_time_obj in
          (Returned employee,
           mkSession (employees s ++ [employee]) (customers s) (services s)
                     (appointments s))
      end
  end.

(** [add_service]; [price] and [description] are columns outside this
    embedding. *)
Definition add_service (s : Session) (shop_id : Z) (name : string)
  (duration_minutes : Z) : Service.t * Session :=
  let service :=
    Service.mk (next_id (map Service.id (services s))) shop_id name
               duration_minutes in
  (service,
   mkSession (employees s) (customers s) (services s ++ [service])
             (appointments s)).

(** [appointment.status = 'cancelled'] *)
Definition set_cancelled (a : Appointment.t) : Appointment.t :=
  Appointment.mk (Appointment.id a) (Appointment.shop_id a)
    (Appointment.employee_id a) (Appointment.customer_id a)
    (Appointment.service_id a) (Appointment.appointment_date a)
    (Appointment.start_time a) (Appointment.end_time a)
    "cancelled" (Appointment.notes a).

(** The table after the row that [query(Appointment).get(appointment_id)]
    returns, the first one under that key, has been cancelled. *)
Fixpoint cancel_row (appointment_id : Z) (rows : list Appointment.t)
  : list Appointment.t :=
  match rows with
  | [] => []
  | a :: rest =>
      if Appointment.id a =? appointment_id then set_cancelled a :: rest
      else a :: cancel_row appointment_id rest
  end.

(** [cancel_appointment] *)
Definition cancel_appointment (s : Session) (appointment_id : Z)
  : bool * Session :=
  match find (fun a => Appointment.id a =? appointment_id) (appointments s) with
  | Some appointment =>
      (true,
       mkSession (employees s) (customers s) (services s)
                 (cancel_row appointment_id (appointments s)))
  | None => (false, s)
  end.

(** The order of [order_by(appointment_date, start_time)]. *)
Definition appt_leb (a b : Appointment.t) : bool :=
  (Appointment.appointment_date a <? Appointment.appointment_date b)
  || ((Appointment.appointment_date a =? Appointment.appointment_date b)
      && (Appointment.start_time a <=? Appointment.start_time b)).

Fixpoint insert_appt (a : Appointment.t) (sorted : list Appointment.t)
  : list Appointment.t :=
  match sorted with
  | [] => [a]
  | b :: rest => if appt_leb a b then a :: b :: rest else b :: insert_appt a rest
  end.

(** [query.order_by(Appointment.appointment_date, Appointment.start_time)]:
    a sort by date, then start time.  Rows equal in both keep their table
    order here; the store leaves their order open. *)
Definition order_by_date_time (rows : list Appointment.t) : list Appointment.t :=
  fold_right insert_appt [] rows.

(** [get_shop_appointments]; a [date] object is always truthy, so
    [if date:] asks whether the argument was given. *)
Definition get_shop_appointments (s : Session) (shop_id : Z) (d : option date)
  : list Appointment.t :=
  let query :=
    filter (fun a => (Appointment.shop_id a =? shop_id)
                     && negb (String.eqb (Appointment.status a) "cancelled"))
           (appointments s) in
  let query :=
    match d with
    | Some d => filter (fun a => Appointment.appointment_date a =? d) query
    | None => query
    end in
  order_by_date_time query.

(** [get_employee_appointments] *)
Definition get_employee_appointments (s : Session) (employee_id : Z)
  (d : option date) : list Appointment.t :=
  let query :=
    filter (fun a => (Appointment.employee_id a =? employee_id)
                     && negb (String.eqb (Appointment.status a) "cancelled"))
           (appointments s) in
  let query :=
    match d with
    | Some d => filter (fun a => Appointment.appointment_date a =? d) query
    | None => query
    end in
  order_by_date_time query.

(** ** main.py *)

(** The digit character of [n], for [0 <= n <= 9]. *)
Definition digit_char (n : Z) : ascii := ascii_of_N (Z.to_N (48 + n)).

(** A number below 100 on two digits: [%02d]. *)
Definition two_digits (n : Z) : string :=
  String (digit_char (n / 10)) (String (digit_char (n mod 10)) EmptyString).

(** [t.strftime("%H:%M")] *)
Definition strftime_HM (t : time) : string :=
  (two_digits (t / 60) ++ String ":"%char (two_digits (t mod 60)))%string.

(** What an endpoint gives back: the body it returns, the [HTTPException]
    it raises, or an exception it lets through. *)
Inductive response (A : Type) : Type :=
| Body (body : A)
| HTTPException (status_code : Z) (detail : string)
| Uncaught (e : exn).
Arguments Body {A} body.
Arguments HTTPException {A} status_code detail.
Arguments Uncaught {A} e.



(** [cancel_appointment], the handler of [DELETE /api/bookings/{id}]. *)
Definition cancel_appointment_endpoint (s : Session) (appointment_id : Z)
  : response string * Session :=
  let '(success, s') := cancel_appointment s appointment_id in
  if negb success then (HTTPException 404 "Appointment not found", s')
  else (Body "Appointment cancelled successfully", s').

(** ** Sample data *)

Definition hm (h m : Z) : time := h * 60 + m.

(** 2024-01-01, a Monday. *)
Definition monday : date := 738886.

Definition mike : Employee.t :=
  Employee.mk 1 1 "Mike Johnson" true "Mon,Tue,Wed,Thu,Fri,Sat" (hm 9 0) (hm 12 0).

Definition haircut_beard_long : Service.t := Service.mk 1 1 "Haircut + Beard" 60.

Definition shop0 : Session := mkSession [mike] [] [haircut_beard_long] [].

(** Sessions used in the examples. *)

Definition sarah : Employee.t :=
  Employee.mk 2 1 "Sarah Williams" true "Tue,Wed" (hm 10 0) (hm 19 0).

Definition marathon_cut : Service.t := Service.mk 2 1 "Full day styling" 1500.

(** A shop with two barbers, a 60-minute and a 1500-minute service. *)
Definition shop1 : Session :=
  mkSession [mike; sarah] [] [haircut_beard_long; marathon_cut] [].

(** The session after Alex Thompson has booked barber 1 for 10:00--10:30. *)
Definition shop0_booked : Session :=
  snd (book_appointment monday shop0 1 "555-2001" "Alex Thompson" monday
         "10:00" None "").

(** A barber working 09:00--10:00 with one appointment 09:00--09:30. *)
Definition tom : Employee.t :=
  Employee.mk 3 2 "Tom Baker" true "Mon,Tue,Wed,Thu,Fri" (hm 9 0) (hm 10 0).

Definition shop2 : Session :=
  snd (book_appointment monday (mkSession [tom] [] [] []) 3 "555-2004"
         "Tommy Johnson" monday "09:00" None "").

(** A barber without working days. *)
Definition idle : Employee.t :=
  Employee.mk 4 3 "Nobody" true "" (hm 9 0) (hm 18 0).

(** Mike with a one-hour morning and an empty calendar. *)
Definition mike_morning : Session :=
  mkSession
    [Employee.mk 1 1 "Mike Johnson" true "Mon,Tue,Wed,Thu,Fri,Sat" (hm 9 0) (hm 10 0)]
    [] [] [].

(** ** Vocabulary of the properties *)

(** The half-open overlap test of the spec: two intervals overlap unless
    [candidate_end <= appt_start] or [candidate_start >= appt_end]. *)
Definition overlaps (candidate_start candidate_end appt_start appt_end : time)
  : bool :=
  negb ((candidate_end <=? appt_start) || (appt_end <=? candidate_start)).

(** The slot that starts at datetime [c]. *)
Definition slot_at (c : datetime) : Slot :=
  mkSlot (time_of c) (time_of (c + slot_duration)) true.

(** Every employee row holds times of day. *)
Definition valid_session (s : Session) : Prop :=
  Forall (fun e => valid_time (Employee.start_time e)
                   /\ valid_time (Employee.end_time e))
         (employees s).

Definition starts_before (a b : Slot) : Prop :=
  slot_start_time a < slot_start_time b.

(** The primary keys of each table, and the phone numbers of the customers
    (a unique column), occur once. *)
Definition keys_unique (s : Session) : Prop :=
  NoDup (map Employee.id (employees s))
  /\ NoDup (map Customer.id (customers s))
  /\ NoDup (map Customer.phone (customers s))
  /\ NoDup (map Service.id (services s))
  /\ NoDup (map Appointment.id (appointments s)).

(** An appointment row that fits its session: times of day, an employee and
    a customer behind its foreign keys, the shop of that employee, and one of
    the two statuses the operations write. *)
Definition appointment_consistent (s : Session) (a : Appointment.t) : Prop :=
  valid_time (Appointment.start_time a)
  /\ valid_time (Appointment.end_time a)
  /\ (exists e, get_employee s (Appointment.employee_id a) = Some e
                /\ Appointment.shop_id a = Employee.shop_id e)
  /\ (exists c, In c (customers s)
                /\ Customer.id c = Appointment.customer_id a)
  /\ (Appointment.status a = "scheduled" \/ Appointment.status a = "cancelled").

Definition well_formed (s : Session) : Prop :=
  valid_session s
  /\ keys_unique s
  /\ Forall (appointment_consistent s) (appointments s).

(** The order of a listing: by date, then by start time. *)
Definition listed_before (a b : Appointment.t) : Prop :=
  Appointment.appointment_date a < Appointment.appointment_date b
  \/ (Appointment.appointment_date a = Appointment.appointment_date b
      /\ Appointment.start_time a <= Appointment.start_time b).

(** The rows a listing asks for: not cancelled, and on the date when one is
    given. *)
Definition listable (d : option date) (a : Appointment.t) : Prop :=
  Appointment.status a <> "cancelled"
  /\ match d with
     | Some d => Appointment.appointment_date a = d
     | None => True
     end.

(** The sessions the operations of the booking manager build from empty
    tables. *)
Inductive reachable : Session -> Prop :=
| reachable_empty : reachable (mkSession [] [] [] [])
| reachable_add_employee (s : Session) (shop_id : Z)
    (name phone working_days start_time end_time : string) :
    reachable s ->
    reachable (snd (add_employee s shop_id name phone working_days
                      start_time end_time))
| reachable_add_service (s : Session) (shop_id : Z) (name : string)
    (duration_minutes : Z) :
    reachable s ->
    reachable (snd (add_service s shop_id name duration_minutes))
| reachable_register_customer (s : Session) (name phone : string) :
    reachable s ->
    reachable (snd (register_customer s name phone))
| reachable_book_appointment (today : date) (s : Session) (employee_id : Z)
    (customer_phone customer_name : string) (appointment_date : date)
    (start_time : string) (service_id : option Z) (notes : string) :
    reachable s ->
    reachable (snd (book_appointment today s employee_id customer_phone
                      customer_name appointment_date start_time service_id
                      notes))
| reachable_cancel_appointment (s : Session) (appointment_id : Z) :
    reachable s ->
    reachable (snd (cancel_appointment s appointment_id)).

(** The empty store, and a shop set up through the operations. *)
Definition empty_session : Session := mkSession [] [] [] [].

Definition shop3 : Session :=
  let s := snd (add_employee empty_session 1 "Mike Johnson" "555-0101"
                  "Mon,Tue,Wed,Thu,Fri,Sat" "09:00" "18:00") in
  let s := snd (add_service s 1 "Basic Haircut" 30) in
  snd (book_appointment monday s 1 "555-2001" "Alex Thompson" monday "14:00"
         (Some 1) "").

(** * Properties *)

(** ** Calendar arithmetic *)

(** Goals about minutes and days, once the constants are unfolded. *)
Ltac calendar :=
  unfold combine, valid_time, slot_duration, minutes_per_day, max_ordinal in *;
  lia.

Lemma time_of_combine_add (d : date) (t delta : Z) :
  time_of (combine d t + delta) = (t + delta) mod minutes_per_day.
Proof.
  unfold time_of, combine.
  replace (d * minutes_per_day + t + delta)
    with (t + delta + d * minutes_per_day) by ring.
  apply Z_mod_plus_full.
Qed.

(** ** The customer table *)

Lemma find_app_new {A : Type} (p : A -> bool) (l : list A) (x : A) :
  find p l = None -> p x = true -> find p (l ++ [x]) = Some x.
Proof.
  intros Hl Hx. induction l as [|a l IH]; cbn in *.
  - now rewrite Hx.
  - destruct (p a); [discriminate | now apply IH].
Qed.

Section RegisterCustomer.

Variables (s : Session) (name phone : string).

Lemma register_customer_employees :
  employees (snd (register_customer s name phone)) = employees s.
Proof. unfold register_customer. destruct (find _ _); reflexivity. Qed.

Lemma register_customer_services :
  services (snd (register_customer s name phone)) = services s.
Proof. unfold register_customer. destruct (find _ _); reflexivity. Qed.

Lemma register_customer_appointments :
  appointments (snd (register_customer s name phone)) = appointments s.
Proof. unfold register_customer. destruct (find _ _); reflexivity. Qed.

Lemma register_customer_get_employee (employee_id : Z) :
  get_employee (snd (register_customer s name phone)) employee_id
  = get_employee s employee_id.
Proof. unfold get_employee. now rewrite register_customer_employees. Qed.

Lemma register_customer_get_service (service_id : Z) :
  get_service (snd (register_customer s name phone)) service_id
  = get_service s service_id.
Proof. unfold get_service. now rewrite register_customer_services. Qed.

(** After the call the phone number is in the table, and the first row
    carrying it is the customer that was returned. *)
Lemma register_customer_lookup :
  find (fun c => String.eqb (Customer.phone c) phone)
       (customers (snd (register_customer s name phone)))
  = Some (fst (register_customer s name phone)).
Proof.
  unfold register_customer.
  destruct (find _ (customers s)) eqn:E; cbn [fst snd customers].
  - exact E.
  - apply find_app_new; [exact E | apply String.eqb_refl].
Qed.

End RegisterCustomer.

Lemma register_customer_twice (s : Session) (name1 name2 phone : string) :
  register_customer (snd (register_customer s name1 phone)) name2 phone
  = register_customer s name1 phone.
Proof.
  unfold register_customer at 1.
  rewrite register_customer_lookup.
  now destruct (register_customer s name1 phone).
Qed.

Lemma booking_duration_register (s : Session) (name phone : string)
  (service_id : option Z) :
  booking_duration (snd (register_customer s name phone)) service_id
  = booking_duration s service_id.
Proof.
  unfold booking_duration. destruct (truthy service_id); [|reflexivity].
  now rewrite register_customer_get_service.
Qed.

(** [book_appointment] with every lookup read in the session it was given:
    the customer upsert touches the customer table only. *)
Lemma book_appointment_eq (today : date) (s : Session) (employee_id : Z)
  (customer_phone customer_name : string) (d : date) (start_time : string)
  (service_id : option Z) (notes : string) :
  book_appointment today s employee_id customer_phone customer_name
    d start_time service_id notes
  = let customer := fst (register_customer s customer_name customer_phone) in
    let s1 := snd (register_customer s customer_name customer_phone) in
    match get_employee s employee_id with
    | None => (Raised StaffNotFound, s1)
    | Some employee =>
        match strptime_HM start_time with
        | Raised e => (Raised e, s1)
        | Returned start =>
            let end_time :=
              (start + booking_duration s service_id) mod minutes_per_day in
            if in_datetime_range
                 (combine today start + booking_duration s service_id)
            then match find (conflicts employee_id d start end_time)
                            (appointments s) with
                 | Some _ => (Raised SlotUnavailable, s1)
                 | None =>
                     let appointment :=
                       Appointment.mk
                         (next_id (map Appointment.id (appointments s)))
                         (Employee.shop_id employee) employee_id
                         (Customer.id customer) service_id d start end_time
                         "scheduled" notes in
                     (Returned appointment,
                      mkSession (employees s1) (customers s1) (services s1)
                                (appointments s ++ [appointment]))
                 end
            else (Raised OverflowError, s1)
        end
    end.
Proof.
  unfold book_appointment. cbv zeta.
  pose proof (register_customer_get_employee s customer_name customer_phone
                employee_id) as Hge.
  pose proof (register_customer_appointments s customer_name customer_phone) as Hap.
  pose proof (booking_duration_register s customer_name customer_phone service_id)
    as Hdur.
  destruct (register_customer s customer_name customer_phone) as [customer s1].
  cbn [fst snd] in *. rewrite Hge, Hdur, Hap.
  destruct (get_employee s employee_id) as [employee|]; [|reflexivity].
  destruct (strptime_HM start_time) as [start|]; [|reflexivity].
  unfold datetime_add. cbv zeta.
  destruct (in_datetime_range _); [|reflexivity].
  cbv beta iota. now rewrite time_of_combine_add.
Qed.

Lemma book_appointment_session (today : date) (s : Session) (employee_id : Z)
  (customer_phone customer_name : string) (appointment_date : date)
  (start_time : string) (service_id : option Z) (notes : string) :
  let r := book_appointment today s employee_id customer_phone customer_name
             appointment_date start_time service_id notes in
  let s1 := snd (register_customer s customer_name customer_phone) in
  employees (snd r) = employees s1
  /\ customers (snd r) = customers s1
  /\ services (snd r) = services s1
  /\ match fst r with
     | Returned a =>
         appointments (snd r) = (appointments s1 ++ [a])
         /\ Appointment.customer_id a
            = Customer.id (fst (register_customer s customer_name customer_phone))
     | Raised _ => snd r = s1
     end.
Proof.
  cbv zeta. rewrite book_appointment_eq. cbv zeta.
  rewrite <- (register_customer_appointments s customer_name customer_phone).
  destruct (get_employee s employee_id); [|now cbn].
  destruct (strptime_HM start_time); [|now cbn].
  destruct (in_datetime_range _); [|now cbn].
  destruct (find _ _); now cbn.
Qed.

Lemma register_customer_known (s : Session) (name phone : string) (c : Customer.t) :
  find (fun c => String.eqb (Customer.phone c) phone) (customers s) = Some c ->
  register_customer s name phone = (c, s).
Proof. intros H. unfold register_customer. now rewrite H. Qed.

(** C9. Registration is an upsert keyed on the phone number: a second
    registration with the same phone, whatever the two names are, returns
    the customer of the first one (hence the same identifier) and leaves
    the session as it was; and of two successive bookings under the same
    phone the second adds no customer row and, when both are accepted, the
    two appointments carry the same customer identifier. *)
Theorem customer_upsert_idempotent (s : Session) (name1 name2 phone : string) :
  (let r1 := register_customer s name1 phone in
   let r2 := register_customer (snd r1) name2 phone in
   fst r2 = fst r1
   /\ Customer.id (fst r2) = Customer.id (fst r1)
   /\ snd r2 = snd r1)
  /\ (forall (today1 today2 : date) (eid1 eid2 : Z) (d1 d2 : date)
             (t1 t2 : string) (sv1 sv2 : option Z) (notes1 notes2 : string),
        let b1 := book_appointment today1 s eid1 phone name1 d1 t1 sv1 notes1 in
        let b2 := book_appointment today2 (snd b1) eid2 phone name2 d2 t2 sv2 notes2 in
        customers (snd b2) = customers (snd b1)
        /\ match fst b1, fst b2 with
           | Returned a1, Returned a2 =>
               Appointment.customer_id a2 = Appointment.customer_id a1
           | _, _ => True
           end).
Proof.
  split.
  - cbv zeta. rewrite register_customer_twice. auto.
  - intros. cbv zeta in *.
    pose proof (book_appointment_session today1 s eid1 phone name1 d1 t1 sv1 notes1)
      as (_ & Hc1 & _ & Ha1).
    pose proof (book_appointment_session today2 (snd b1) eid2 phone name2 d2 t2 sv2 notes2)
      as (_ & Hc2 & _ & Ha2).
    cbv zeta in *. fold b1 in Hc1, Ha1. fold b2 in Hc2, Ha2.
    assert (Hreg : register_customer (snd b1) name2 phone
                   = (fst (register_customer s name1 phone), snd b1)).
    { apply register_customer_known. rewrite Hc1.
      apply register_customer_lookup. }
    rewrite Hreg in Hc2, Ha2. cbn [fst snd] in Hc2, Ha2.
    split; [exact Hc2|].
    destruct (fst b1); [|exact I]. destruct (fst b2); [|exact I].
    destruct Ha1 as [_ ->]. destruct Ha2 as [_ ->]. reflexivity.
Qed.

(** Two bookings under one phone number, the name differing in case only:
    one customer row, one identifier. *)
Example customer_upsert_name_casing :
  let b1 := book_appointment monday shop0 1 "555-2001" "Alex Thompson"
              monday "10:00" None "" in
  let b2 := book_appointment monday (snd b1) 1 "555-2001" "ALEX THOMPSON"
              monday "11:00" None "" in
  customers (snd b2) = [Customer.mk 1 "Alex Thompson" "555-2001"]
  /\ (exists a1 a2, fst b1 = Returned a1 /\ fst b2 = Returned a2
                    /\ Appointment.customer_id a1 = 1
                    /\ Appointment.customer_id a2 = 1).
Proof. vm_compute. split; [reflexivity|]. eauto 10. Qed.

(** ** Days off and unknown staff *)

(** C7. On a date whose weekday abbreviation is not one of the
    comma-separated working days of the employee, the availability is the
    empty list, returned and not raised, whatever the working hours are. *)
Theorem non_working_day_no_slots (s : Session) (employee_id : Z) (d : date)
  (employee : Employee.t) :
  get_employee s employee_id = Some employee ->
  str_in (strftime_a d) (split_comma (Employee.working_days employee)) = false ->
  get_employee_availability s employee_id d = Returned [].
Proof.
  intros He Hday. unfold get_employee_availability.
  rewrite He. cbv zeta. now rewrite Hday.
Qed.

(** An employee working [Tue,Wed], asked for a Monday. *)
Lemma non_working_day_no_slots_witness :
  strftime_a monday = "Mon"
  /\ Employee.working_days sarah = "Tue,Wed"
  /\ get_employee_availability shop1 2 monday = Returned [].
Proof.
  split; [reflexivity|]. split; [reflexivity|].
  apply (non_working_day_no_slots shop1 2 monday sarah); reflexivity.
Defined.

(** C8, as the spec states it for the availability query: an unknown staff
    identifier would raise [StaffNotFound].  It does not. *)
Lemma availability_unknown_staff_not_raised :
  ~ (forall (s : Session) (employee_id : Z) (d : date),
       get_employee s employee_id = None ->
       get_employee_availability s employee_id d = Raised StaffNotFound).
Proof.
  intros H. specialize (H shop0 99 monday eq_refl). discriminate H.
Qed.

(** C8, amended. With a staff identifier that does not resolve, a booking
    raises [ValueError("Employee not found")], while the availability query
    returns the empty list. *)
Theorem unknown_staff (today : date) (s : Session) (employee_id : Z)
  (customer_phone customer_name : string) (d : date) (start_time : string)
  (service_id : option Z) (notes : string) :
  get_employee s employee_id = None ->
  fst (book_appointment today s employee_id customer_phone customer_name
         d start_time service_id notes) = Raised StaffNotFound
  /\ get_employee_availability s employee_id d = Returned [].
Proof.
  intros He. split.
  - rewrite book_appointment_eq. cbv zeta. now rewrite He.
  - unfold get_employee_availability. now rewrite He.
Qed.

Lemma unknown_staff_witness :
  fst (book_appointment monday shop0 99 "555-2001" "Alex Thompson"
         monday "10:00" None "") = Raised StaffNotFound
  /\ get_employee_availability shop0 99 monday = Returned [].
Proof. apply unknown_staff. reflexivity. Defined.

(** ** What a booking leaves behind *)

(** C3, as the spec states it: a booking that fails with "slot unavailable"
    or "staff not found" leaves the session as it found it.  It does not:
    the customer row has been committed before either check runs. *)
Lemma failed_booking_keeps_customer :
  ~ (forall (today : date) (s : Session) (employee_id : Z)
            (customer_phone customer_name : string) (d : date)
            (start_time : string) (service_id : option Z) (notes : string)
            (e : exn),
       fst (book_appointment today s employee_id customer_phone customer_name
              d start_time service_id notes) = Raised e ->
       e = SlotUnavailable \/ e = StaffNotFound ->
       snd (book_appointment today s employee_id customer_phone customer_name
              d start_time service_id notes) = s).
Proof.
  intros H.
  specialize (H monday shop0 99 "555-2001" "Alex Thompson" monday "10:00" None ""
                StaffNotFound eq_refl (or_intror eq_refl)).
  discriminate H.
Qed.

(** C3, amended. A booking that raises persists no appointment and changes
    no employee, service or existing customer row, but the customer upsert
    that runs first stays committed: the session is the one
    [register_customer] left, that is the one given when the phone number
    was already registered, and otherwise the one given plus one customer
    row under a fresh identifier.  A booking that returns has persisted
    both the upsert and the appointment. *)
Theorem failed_booking_effect (today : date) (s : Session) (employee_id : Z)
  (customer_phone customer_name : string) (d : date) (start_time : string)
  (service_id : option Z) (notes : string) (r : outcome Appointment.t)
  (s' : Session) :
  book_appointment today s employee_id customer_phone customer_name
    d start_time service_id notes = (r, s') ->
  employees s' = employees s
  /\ services s' = services s
  /\ customers s' = customers (snd (register_customer s customer_name customer_phone))
  /\ match r with
     | Raised _ =>
         appointments s' = appointments s
         /\ match find (fun c => String.eqb (Customer.phone c) customer_phone)
                       (customers s) with
            | Some _ => s' = s
            | None =>
                customers s'
                = (customers s
                   ++ [Customer.mk (next_id (map Customer.id (customers s)))
                                   customer_name customer_phone])
            end
     | Returned a => appointments s' = (appointments s ++ [a])
     end.
Proof.
  intros Hb.
  pose proof (book_appointment_session today s employee_id customer_phone
                customer_name d start_time service_id notes) as H.
  cbv zeta in H. rewrite Hb in H. cbn [fst snd] in H.
  destruct H as (He & Hc & Hs & Hr).
  rewrite register_customer_employees in He.
  rewrite register_customer_services in Hs.
  repeat split; try assumption.
  destruct r as [a|e].
  - destruct Hr as [Hr _]. now rewrite register_customer_appointments in Hr.
  - subst s'. split; [apply register_customer_appointments|].
    unfold register_customer.
    destruct (find _ (customers s)); reflexivity.
Qed.

(** A booking for an unknown barber under a new phone number: it raises, no
    appointment is stored, one customer row is. *)
Lemma failed_booking_effect_witness :
  let b := book_appointment monday shop0 99 "555-2001" "Alex Thompson"
             monday "10:00" None "" in
  fst b = Raised StaffNotFound
  /\ appointments (snd b) = []
  /\ customers (snd b) = [Customer.mk 1 "Alex Thompson" "555-2001"].
Proof.
  cbv zeta.
  pose proof (failed_booking_effect monday shop0 99 "555-2001" "Alex Thompson"
                monday "10:00" None "" (Raised StaffNotFound)
                (snd (book_appointment monday shop0 99 "555-2001" "Alex Thompson"
                        monday "10:00" None "")) eq_refl)
    as (_ & _ & _ & Ha & Hc).
  split; [reflexivity|]. split; [exact Ha | exact Hc].
Defined.

(** ** Start, end and duration of an accepted booking *)

Lemma digit_of_range (c : ascii) (x : Z) : digit_of c = Some x -> 0 <= x <= 9.
Proof.
  unfold digit_of. cbv zeta.
  destruct ((48 <=? _) && (_ <=? 57)) eqn:E; [|discriminate].
  intros [= <-]. apply andb_true_iff in E. lia.
Qed.

Lemma parse_H_range (s rest : string) (h : Z) :
  parse_H s = Some (h, rest) -> 0 <= h <= 23.
Proof.
  destruct s as [|a [|b r]]; unfold parse_H; try discriminate.
  destruct (Ascii.eqb b ":").
  - destruct (digit_of a) as [x|] eqn:Da; [|discriminate].
    intros [= <- _]. apply digit_of_range in Da. lia.
  - destruct r as [|c r']; [discriminate|].
    destruct (Ascii.eqb c ":"); [|discriminate].
    destruct (digit_of a) as [x|] eqn:Da; [|discriminate].
    destruct (digit_of b) as [y|] eqn:Db; [|discriminate].
    destruct ((x <=? 1) || ((x =? 2) && (y <=? 3))) eqn:E; [|discriminate].
    intros H. assert (Hh : h = 10 * x + y) by congruence.
    apply digit_of_range in Da, Db.
    apply orb_true_iff in E. rewrite andb_true_iff in E. lia.
Qed.

Lemma parse_M_range (s : string) (m : Z) : parse_M s = Some m -> 0 <= m <= 59.
Proof.
  destruct s as [|a [|b r]]; unfold parse_M; try discriminate.
  - intros D. apply digit_of_range in D. lia.
  - destruct (digit_of a) as [x|] eqn:Da; [|discriminate].
    destruct (digit_of b) as [y|] eqn:Db; [|discriminate].
    destruct (x <=? 5) eqn:E; [|discriminate].
    destruct r; [|discriminate].
    intros H. assert (Hm : m = 10 * x + y) by congruence.
    apply digit_of_range in Da, Db. lia.
Qed.

(** A parsed time is a time of day. *)
Lemma strptime_HM_valid (s : string) (t : time) :
  strptime_HM s = Returned t -> valid_time t.
Proof.
  unfold strptime_HM, valid_time, minutes_per_day.
  destruct (parse_H s) as [[h rest]|] eqn:Hh; [|discriminate].
  destruct (parse_M rest) as [m|] eqn:Hm; [|discriminate].
  intros H. assert (Ht : t = h * 60 + m) by congruence.
  apply parse_H_range in Hh. apply parse_M_range in Hm. lia.
Qed.

Example strptime_HM_examples :
  strptime_HM "09:45" = Returned (hm 9 45)
  /\ strptime_HM "9:5" = Returned (hm 9 5)
  /\ strptime_HM "23:59" = Returned (hm 23 59)
  /\ strptime_HM "24:00" = Raised InvalidTimeFormat
  /\ strptime_HM "7:60" = Raised InvalidTimeFormat
  /\ strptime_HM "012:30" = Raised InvalidTimeFormat
  /\ strptime_HM "10:30 " = Raised InvalidTimeFormat
  /\ strptime_HM "" = Raised InvalidTimeFormat.
Proof. repeat split. Qed.

(** The steps of an accepted booking, read off the code. *)
Lemma book_appointment_returned (today : date) (s : Session) (employee_id : Z)
  (customer_phone customer_name : string) (d : date) (start_time : string)
  (service_id : option Z) (notes : string) (a : Appointment.t) (s' : Session) :
  book_appointment today s employee_id customer_phone customer_name
    d start_time service_id notes = (Returned a, s') ->
  exists (employee : Employee.t) (start : time),
    get_employee s employee_id = Some employee
    /\ strptime_HM start_time = Returned start
    /\ in_datetime_range (combine today start + booking_duration s service_id) = true
    /\ find (conflicts employee_id d start
               ((start + booking_duration s service_id) mod minutes_per_day))
            (appointments s) = None
    /\ a = Appointment.mk (next_id (map Appointment.id (appointments s)))
             (Employee.shop_id employee) employee_id
             (Customer.id (fst (register_customer s customer_name customer_phone)))
             service_id d start
             ((start + booking_duration s service_id) mod minutes_per_day)
             "scheduled" notes
    /\ appointments s' = (appointments s ++ [a]).
Proof.
  rewrite book_appointment_eq. cbv zeta.
  destruct (get_employee s employee_id) as [employee|]; [|discriminate].
  destruct (strptime_HM start_time) as [start|]; [|discriminate].
  destruct (in_datetime_range _) eqn:Hr; [|discriminate].
  destruct (find _ _) eqn:Hf; [discriminate|].
  intros [= <- <-]. exists employee, start. cbn [appointments].
  repeat split; assumption.
Qed.

(** C6. An accepted booking persists an appointment with status
    [scheduled] that starts at the requested time and ends at that time
    plus the duration, as a time of day; the duration is the one of the
    service looked up, and 30 minutes when no service identifier is given
    (or a zero one) or when the lookup finds no service. *)
Theorem accepted_booking_end_time (today : date) (s : Session) (employee_id : Z)
  (customer_phone customer_name : string) (d : date) (start_time : string)
  (service_id : option Z) (notes : string) (a : Appointment.t) (s' : Session) :
  book_appointment today s employee_id customer_phone customer_name
    d start_time service_id notes = (Returned a, s') ->
  exists (start duration : Z),
    strptime_HM start_time = Returned start
    /\ match service_id with
       | None => duration = 30
       | Some sid =>
           if sid =? 0 then duration = 30
           else match get_service s sid with
                | Some service => duration = Service.duration_minutes service
                | None => duration = 30
                end
       end
    /\ appointments s' = (appointments s ++ [a])
    /\ Appointment.status a = "scheduled"
    /\ Appointment.employee_id a = employee_id
    /\ Appointment.appointment_date a = d
    /\ Appointment.start_time a = start
    /\ Appointment.end_time a = (start + duration) mod minutes_per_day
    /\ (0 <= start + duration < minutes_per_day ->
        Appointment.end_time a = start + duration).
Proof.
  intros Hb.
  apply book_appointment_returned in Hb
    as (employee & start & _ & Hs & _ & _ & Ha & Happ).
  exists start, (booking_duration s service_id).
  split; [exact Hs|]. split.
  { unfold booking_duration, truthy. destruct service_id as [sid|]; [|reflexivity].
    destruct (sid =? 0); [reflexivity|].
    destruct (get_service s sid); reflexivity. }
  split; [exact Happ|]. subst a. cbn.
  repeat split; try reflexivity.
  intros Hrange. now apply Z.mod_small.
Qed.

(** A 60-minute service at 09:45 ends at 10:45; without a service the
    appointment lasts 30 minutes. *)
Lemma accepted_booking_end_time_witness :
  exists (a : Appointment.t) (s' : Session),
    book_appointment monday shop0 1 "555-2002" "David Chen" monday "09:45"
      (Some 1) "" = (Returned a, s')
    /\ Appointment.status a = "scheduled"
    /\ Appointment.start_time a = hm 9 45
    /\ Appointment.end_time a = hm 10 45.
Proof.
  eexists. eexists. split; [reflexivity|].
  destruct (accepted_booking_end_time monday shop0 1 "555-2002" "David Chen"
              monday "09:45" (Some 1) "" _ _ eq_refl)
    as (start & duration & Hs & Hd & _ & Hst & _ & _ & Hstart & _ & Hend).
  injection Hs as <-. cbn in Hd. subst duration.
  split; [exact Hst|]. split; [exact Hstart|].
  apply Hend. unfold hm, minutes_per_day. lia.
Defined.

Example default_duration_is_30 :
  exists (a : Appointment.t) (s' : Session),
    book_appointment monday shop0 1 "555-2001" "Alex Thompson" monday "10:00"
      None "" = (Returned a, s')
    /\ Appointment.start_time a = hm 10 0
    /\ Appointment.end_time a = hm 10 30.
Proof. eexists. eexists. repeat split. Qed.

(** ** Bookings that run past midnight *)

Lemma find_none_of_forall {A : Type} (p : A -> bool) (l : list A) :
  (forall x, In x l -> p x = false) -> find p l = None.
Proof.
  induction l as [|a l IH]; cbn; intros H; [reflexivity|].
  rewrite (H a (or_introl eq_refl)). apply IH. intros x Hx. apply H. now right.
Qed.

(** C10, as stated: whenever start plus duration reaches past midnight, the
    stored end time is earlier in the day than the start time.  A service of
    24 hours or more breaks this: 01:00 plus 1500 minutes is stored as
    01:00--02:00. *)
Lemma long_service_ends_after_start :
  ~ (forall (today : date) (s : Session) (employee_id : Z)
            (customer_phone customer_name : string) (d : date)
            (start_time : string) (service_id : option Z) (notes : string)
            (a : Appointment.t) (s' : Session) (start : time),
       book_appointment today s employee_id customer_phone customer_name
         d start_time service_id notes = (Returned a, s') ->
       strptime_HM start_time = Returned start ->
       minutes_per_day <= start + booking_duration s service_id ->
       Appointment.end_time a < Appointment.start_time a).
Proof.
  intros H.
  specialize (H monday shop1 1 "555-2003" "Robert Wilson" monday "01:00"
                (Some 2) "" _ _ (hm 1 0) eq_refl eq_refl).
  cbn in H. specialize (H ltac:(discriminate)). discriminate H.
Qed.

(** C10, amended. The stored end time is start plus duration modulo 24
    hours.  For a duration below 24 hours that carries the start time to
    midnight or past it, the request is accepted as soon as the conflict
    query finds nothing (no check rejects it), and the stored end time is
    start plus duration minus 24 hours, a time of day earlier than the start
    time. *)
Theorem booking_past_midnight_wraps (today : date) (s : Session) (employee_id : Z)
  (customer_phone customer_name : string) (d : date) (start_time : string)
  (service_id : option Z) (notes : string) (employee : Employee.t)
  (start : time) :
  1 <= today < max_ordinal ->
  get_employee s employee_id = Some employee ->
  strptime_HM start_time = Returned start ->
  booking_duration s service_id < minutes_per_day ->
  minutes_per_day <= start + booking_duration s service_id ->
  (forall a, In a (appointments s) ->
             conflicts employee_id d start
               (start + booking_duration s service_id - minutes_per_day) a = false) ->
  exists (a : Appointment.t) (s' : Session),
    book_appointment today s employee_id customer_phone customer_name
      d start_time service_id notes = (Returned a, s')
    /\ Appointment.start_time a = start
    /\ Appointment.end_time a
       = (start + booking_duration s service_id) mod minutes_per_day
    /\ Appointment.end_time a
       = start + booking_duration s service_id - minutes_per_day
    /\ Appointment.end_time a < Appointment.start_time a.
Proof.
  intros Htoday He Hs Hlt Hge Hfree.
  pose proof (strptime_HM_valid _ _ Hs) as Hv.
  unfold valid_time, minutes_per_day in *.
  assert (Hmod : (start + booking_duration s service_id) mod 1440
                 = start + booking_duration s service_id - 1440).
  { symmetry. apply Z.mod_unique with (q := 1); lia. }
  assert (Hr : in_datetime_range
                 (combine today start + booking_duration s service_id) = true).
  { unfold in_datetime_range, combine, minutes_per_day, max_ordinal in *.
    apply andb_true_iff. split; [apply Z.leb_le | apply Z.ltb_lt]; lia. }
  rewrite book_appointment_eq. cbv zeta. rewrite He, Hs, Hr.
  unfold minutes_per_day. rewrite Hmod, (find_none_of_forall _ _ Hfree).
  eexists. eexists. split; [reflexivity|]. cbn.
  repeat split; lia.
Qed.

(** 23:50 with the default 30 minutes is stored as 23:50--00:20. *)
Lemma booking_past_midnight_wraps_witness :
  exists (a : Appointment.t) (s' : Session),
    book_appointment monday shop0 1 "555-2001" "Alex Thompson" monday "23:50"
      None "" = (Returned a, s')
    /\ Appointment.start_time a = hm 23 50
    /\ Appointment.end_time a = hm 0 20.
Proof.
  destruct (booking_past_midnight_wraps monday shop0 1 "555-2001" "Alex Thompson"
              monday "23:50" None "" mike (hm 23 50))
    as (a & s' & Hb & Hstart & _ & Hend & _).
  - unfold monday, max_ordinal. lia.
  - reflexivity.
  - reflexivity.
  - vm_compute. reflexivity.
  - vm_compute. discriminate.
  - intros a [].
  - exists a, s'. split; [exact Hb|]. split; [exact Hstart|]. exact Hend.
Defined.

(** ** The conflict check of a booking *)

(** What the conflict query of [book_appointment] rejects, in general: a
    booking that got as far as the query raises [SlotUnavailable] exactly
    when some row satisfies its filter. *)
Lemma book_appointment_rejects_iff (today : date) (s : Session) (employee_id : Z)
  (customer_phone customer_name : string) (d : date) (start_time : string)
  (service_id : option Z) (notes : string) (employee : Employee.t)
  (start : time) :
  get_employee s employee_id = Some employee ->
  strptime_HM start_time = Returned start ->
  in_datetime_range (combine today start + booking_duration s service_id) = true ->
  fst (book_appointment today s employee_id customer_phone customer_name
         d start_time service_id notes) = Raised SlotUnavailable
  <-> exists a, In a (appointments s)
                /\ conflicts employee_id d start
                     ((start + booking_duration s service_id) mod minutes_per_day)
                     a = true.
Proof.
  intros He Hs Hr. rewrite book_appointment_eq. cbv zeta. rewrite He, Hs, Hr.
  destruct (find _ _) as [c|] eqn:Hf; cbn [fst].
  - split; [intros _|reflexivity]. apply find_some in Hf. now exists c.
  - split; [discriminate|]. intros (a & Hin & Hc).
    now rewrite (find_none _ _ Hf a Hin) in Hc.
Qed.

(** C1 on the code: barber 1 is booked 10:00--10:30; a 60-minute service
    requested for 09:45 is then accepted as well, and the session holds two
    scheduled appointments of one barber on one date whose intervals
    09:45--10:45 and 10:00--10:30 intersect. *)
Theorem double_booking_accepted :
  exists (a1 a2 : Appointment.t) (s2 : Session),
    book_appointment monday shop0 1 "555-2001" "Alex Thompson" monday
      "10:00" None "" = (Returned a1, shop0_booked)
    /\ book_appointment monday shop0_booked 1 "555-2002" "David Chen" monday
         "09:45" (Some 1) "" = (Returned a2, s2)
    /\ appointments s2 = [a1; a2]
    /\ Appointment.employee_id a1 = Appointment.employee_id a2
    /\ Appointment.appointment_date a1 = Appointment.appointment_date a2
    /\ Appointment.status a1 = "scheduled"
    /\ Appointment.status a2 = "scheduled"
    /\ (Appointment.start_time a1, Appointment.end_time a1) = (hm 10 0, hm 10 30)
    /\ (Appointment.start_time a2, Appointment.end_time a2) = (hm 9 45, hm 10 45)
    /\ Appointment.start_time a2 < Appointment.end_time a1
    /\ Appointment.start_time a1 < Appointment.end_time a2.
Proof.
  eexists. eexists. eexists.
  split; [reflexivity|]. split; [reflexivity|].
  repeat split.
Qed.

(** C2 on the code: with barber 1 booked 10:00--10:30, the candidate
    09:45--10:45 overlaps that appointment under the half-open test, yet the
    conflict filter does not select it and the booking is returned, not
    rejected.  The 30-minute request for 09:45 of the spec, whose end falls
    inside the appointment, is rejected. *)
Theorem contained_commitment_not_detected :
  (exists a1 : Appointment.t,
     appointments_on shop0_booked 1 monday = [a1]
     /\ overlaps (hm 9 45) (hm 10 45)
          (Appointment.start_time a1) (Appointment.end_time a1) = true
     /\ conflicts 1 monday (hm 9 45) (hm 10 45) a1 = false
     /\ exists a2 : Appointment.t,
          fst (book_appointment monday shop0_booked 1 "555-2002" "David Chen"
                 monday "09:45" (Some 1) "") = Returned a2)
  /\ fst (book_appointment monday shop0_booked 1 "555-2002" "David Chen"
            monday "09:45" None "") = Raised SlotUnavailable.
Proof.
  split; [|reflexivity].
  eexists. split; [reflexivity|]. split; [reflexivity|]. split; [reflexivity|].
  eexists. reflexivity.
Qed.

(** ** The slot generator *)

Lemma slot_loop_spec (appts : list Appointment.t) (d : date)
  (end_datetime current_time : datetime) (time_slots : list Slot) :
  minutes_per_day <= current_time ->
  current_time < max_ordinal * minutes_per_day ->
  end_datetime < max_ordinal * minutes_per_day ->
  exists cs : list datetime,
    slot_loop appts d end_datetime current_time time_slots
    = Returned (time_slots ++ map slot_at cs)
    /\ (forall c, In c cs <->
          (exists k, 0 <= k /\ c = current_time + slot_duration * k)
          /\ c + slot_duration <= end_datetime
          /\ is_available d c (c + slot_duration) appts = true)
    /\ StronglySorted Z.lt cs.
Proof.
  funelim (slot_loop appts d end_datetime current_time time_slots);
    intros Hlo Hhi Hend.
  - (* the addition stays inside the datetime range *)
    exfalso. unfold in_datetime_range, slot_duration, minutes_per_day,
      max_ordinal in *.
    apply andb_false_iff in Heq as [Heq|Heq];
      [apply Z.leb_gt in Heq | apply Z.ltb_ge in Heq]; lia.
  - (* one more step of the loop *)
    destruct H as (cs & Hrun & Hin & Hsorted);
      [calendar ..|].
    assert (Hlater : forall c, In c cs -> current_time < c).
    { intros c Hc. apply Hin in Hc as ((k & Hk & ->) & _).
      unfold slot_duration. lia. }
    assert (Hshift : forall c,
               (exists k, 0 <= k /\ c = current_time + slot_duration * k)
               <-> c = current_time
                   \/ exists k, 0 <= k
                        /\ c = current_time + slot_duration + slot_duration * k).
    { intros c. unfold slot_duration. split.
      - intros (k & Hk & ->). destruct (Z.eq_dec k 0) as [->|Hk0].
        + left. lia.
        + right. exists (k - 1). lia.
      - intros [->|(k & Hk & ->)]; [exists 0 | exists (k + 1)]; lia. }
    rewrite Hrun.
    destruct (is_available d current_time (current_time + slot_duration) appts)
      eqn:Hfree.
    + exists (current_time :: cs). split; [|split].
      * cbn [map]. now rewrite <- app_assoc.
      * intros c. rewrite Hshift. cbn [In]. rewrite Hin. split.
        -- intros [<-|(Hk & Hc & Ha)]; [now auto | now auto].
        -- intros ([->|Hk] & Hc & Ha); [now left | now right].
      * constructor; [exact Hsorted|]. apply Forall_forall. exact Hlater.
    + exists cs. split; [reflexivity|]. split; [|exact Hsorted].
      intros c. rewrite Hshift, Hin. split.
      * intros (Hk & Hc & Ha). auto.
      * intros ([->|Hk] & Hc & Ha); [congruence | auto].
  - (* the loop ends *)
    exists []. split; [now rewrite app_nil_r|]. split; [|constructor].
    intros c. split; [intros []|].
    intros ((k & Hk & ->) & Hc & _). unfold slot_duration in *. lia.
Qed.

Lemma is_available_spec (d : date) (current_time slot_end : datetime)
  (appts : list Appointment.t) :
  is_available d current_time slot_end appts = true
  <-> forall a, In a appts ->
        slot_end <= combine d (Appointment.start_time a)
        \/ combine d (Appointment.end_time a) <= current_time.
Proof.
  induction appts as [|a appts IH]; cbn [is_available].
  - split; [intros _ a [] | reflexivity].
  - unfold slot_overlaps at 1. cbv zeta.
    destruct ((slot_end <=? _) || (_ <=? current_time)) eqn:E; cbn [negb].
    + rewrite IH. apply orb_true_iff in E.
      rewrite Z.leb_le, Z.leb_le in E. split.
      * intros H b [<-|Hb]; [exact E | now apply H].
      * intros H b Hb. apply H. now right.
    + split; [discriminate|]. intros H.
      specialize (H a (or_introl eq_refl)).
      apply orb_false_iff in E as [E1 E2].
      apply Z.leb_gt in E1, E2. lia.
Qed.

Lemma appointments_on_spec (s : Session) (employee_id : Z) (d : date)
  (a : Appointment.t) :
  In a (appointments_on s employee_id d)
  <-> In a (appointments s)
      /\ Appointment.employee_id a = employee_id
      /\ Appointment.appointment_date a = d
      /\ Appointment.status a <> "cancelled".
Proof.
  unfold appointments_on. rewrite filter_In, !andb_true_iff, negb_true_iff.
  rewrite !Z.eqb_eq, String.eqb_neq. tauto.
Qed.

Lemma time_of_in_day (d : date) (c : datetime) :
  d * minutes_per_day <= c < (d + 1) * minutes_per_day ->
  time_of c = c - d * minutes_per_day.
Proof.
  intros H. unfold time_of. symmetry.
  apply Z.mod_unique with (q := d); unfold minutes_per_day in *; lia.
Qed.

(** On a working day the loop runs to its end and returns, in increasing
    order, the slots of the free steps between start and end of the day. *)
Lemma availability_working_day (s : Session) (employee_id : Z) (d : date)
  (employee : Employee.t) :
  get_employee s employee_id = Some employee ->
  str_in (strftime_a d) (split_comma (Employee.working_days employee)) = true ->
  valid_time (Employee.start_time employee) ->
  valid_time (Employee.end_time employee) ->
  1 <= d < max_ordinal ->
  exists cs : list datetime,
    get_employee_availability s employee_id d = Returned (map slot_at cs)
    /\ (forall c, In c cs <->
          (exists k, 0 <= k
             /\ c = combine d (Employee.start_time employee) + slot_duration * k)
          /\ c + slot_duration <= combine d (Employee.end_time employee)
          /\ is_available d c (c + slot_duration)
               (appointments_on s employee_id d) = true)
    /\ StronglySorted Z.lt cs.
Proof.
  intros He Hday Hs Hend Hd. unfold get_employee_availability.
  rewrite He. cbv zeta. rewrite Hday. cbn [negb].
  apply (slot_loop_spec (appointments_on s employee_id d) d
           (combine d (Employee.end_time employee))
           (combine d (Employee.start_time employee)) []);
    calendar.
Qed.

Lemma sorted_slots_of_day (d : date) (cs : list datetime) :
  (forall c, In c cs -> d * minutes_per_day <= c < (d + 1) * minutes_per_day) ->
  StronglySorted Z.lt cs ->
  StronglySorted (fun a b => slot_start_time a < slot_start_time b)
                 (map slot_at cs).
Proof.
  intros Hday Hsorted. induction Hsorted as [|c cs Hs IH Hall]; cbn [map].
  - constructor.
  - constructor.
    + apply IH. intros x Hx. apply Hday. now right.
    + apply Forall_forall. intros sl Hsl.
      apply in_map_iff in Hsl as (x & <- & Hx).
      rewrite Forall_forall in Hall. specialize (Hall x Hx).
      cbn [slot_at slot_start_time].
      rewrite (time_of_in_day d c), (time_of_in_day d x).
      * lia.
      * apply Hday. now right.
      * apply Hday. now left.
Qed.

(** C4. On a working day the availability is exactly the list of the
    30-minute steps [start + 30k, start + 30k + 30) of the working window
    that end by its end and overlap no non-cancelled appointment of the
    employee on that date, where overlap is half-open: a step is free of an
    appointment when it ends at or before the appointment's start or starts
    at or after its end.  The slots come in increasing order of start
    time. *)
Theorem availability_exact (s : Session) (employee_id : Z) (d : date)
  (employee : Employee.t) :
  get_employee s employee_id = Some employee ->
  str_in (strftime_a d) (split_comma (Employee.working_days employee)) = true ->
  valid_time (Employee.start_time employee) ->
  valid_time (Employee.end_time employee) ->
  1 <= d < max_ordinal ->
  exists slots : list Slot,
    get_employee_availability s employee_id d = Returned slots
    /\ (forall sl : Slot,
          In sl slots <->
          exists k : Z,
            0 <= k
            /\ sl = mkSlot (Employee.start_time employee + 30 * k)
                           (Employee.start_time employee + 30 * k + 30) true
            /\ Employee.start_time employee + 30 * k + 30
               <= Employee.end_time employee
            /\ forall a : Appointment.t,
                 In a (appointments s) ->
                 Appointment.employee_id a = employee_id ->
                 Appointment.appointment_date a = d ->
                 Appointment.status a <> "cancelled" ->
                 Employee.start_time employee + 30 * k + 30
                 <= Appointment.start_time a
                 \/ Appointment.end_time a
                    <= Employee.start_time employee + 30 * k)
    /\ StronglySorted (fun a b => slot_start_time a < slot_start_time b) slots.
Proof.
  intros He Hday Hs Hend Hd.
  destruct (availability_working_day s employee_id d employee He Hday Hs Hend Hd)
    as (cs & Hrun & Hin & Hsorted).
  set (st := Employee.start_time employee) in *.
  set (en := Employee.end_time employee) in *.
  assert (Hinday : forall c, In c cs ->
            d * minutes_per_day <= c
            /\ c + slot_duration < (d + 1) * minutes_per_day).
  { intros c Hc. apply Hin in Hc as ((k & Hk & ->) & Hc & _).
    calendar. }
  assert (Hslot : forall k, 0 <= k -> st + 30 * k + 30 <= en ->
            slot_at (combine d st + slot_duration * k)
            = mkSlot (st + 30 * k) (st + 30 * k + 30) true).
  { intros k Hk Hle. unfold slot_at.
    rewrite !(time_of_in_day d);
      unfold combine, valid_time, minutes_per_day, slot_duration in *;
      [f_equal; lia | lia | lia]. }
  assert (Hfree : forall k,
            is_available d (combine d st + slot_duration * k)
              (combine d st + slot_duration * k + slot_duration)
              (appointments_on s employee_id d) = true
            <-> forall a, In a (appointments s) ->
                  Appointment.employee_id a = employee_id ->
                  Appointment.appointment_date a = d ->
                  Appointment.status a <> "cancelled" ->
                  st + 30 * k + 30 <= Appointment.start_time a
                  \/ Appointment.end_time a <= st + 30 * k).
  { intros k. rewrite is_available_spec. split.
    - intros H a Ha H1 H2 H3.
      specialize (H a (proj2 (appointments_on_spec s employee_id d a)
                         (conj Ha (conj H1 (conj H2 H3))))).
      unfold combine, slot_duration in H. lia.
    - intros H a Ha. apply appointments_on_spec in Ha as (Ha & H1 & H2 & H3).
      specialize (H a Ha H1 H2 H3). unfold combine, slot_duration. lia. }
  exists (map slot_at cs). split; [exact Hrun|]. split.
  - intros sl. rewrite in_map_iff. split.
    + intros (c & <- & Hc). apply Hin in Hc as ((k & Hk & ->) & Hc & Ha).
      assert (Hle : st + 30 * k + 30 <= en)
        by (unfold combine, slot_duration in Hc; lia).
      exists k. split; [exact Hk|]. split; [now apply Hslot|].
      split; [exact Hle|]. now apply Hfree.
    + intros (k & Hk & -> & Hle & Ha).
      exists (combine d st + slot_duration * k). split; [now apply Hslot|].
      apply Hin. split; [now exists k|]. split.
      * unfold combine, slot_duration. lia.
      * now apply Hfree.
  - apply (sorted_slots_of_day d); [|exact Hsorted].
    intros c Hc. apply Hinday in Hc. unfold slot_duration in Hc. lia.
Qed.

(** The window 09:00--10:00 with one appointment 09:00--09:30: the slot
    09:30--10:00, which touches the appointment's end, is offered, the slot
    09:00--09:30 is not. *)
Lemma availability_exact_witness :
  exists slots : list Slot,
    get_employee_availability shop2 3 monday = Returned slots
    /\ In (mkSlot (hm 9 30) (hm 10 0) true) slots
    /\ ~ In (mkSlot (hm 9 0) (hm 9 30) true) slots.
Proof.
  destruct (availability_exact shop2 3 monday tom) as (slots & Hrun & Hin & _).
  - reflexivity.
  - reflexivity.
  - unfold valid_time, minutes_per_day. cbn. lia.
  - unfold valid_time, minutes_per_day. cbn. lia.
  - unfold monday, max_ordinal. lia.
  - exists slots. split; [exact Hrun|]. split.
    + apply Hin. exists 1. split; [lia|]. split; [reflexivity|].
      split; [cbn; lia|].
      intros a [<-|[]] _ _ _. right. cbn. lia.
    + intros H. apply Hin in H as (k & Hk & Heq & _ & Hfree).
      assert (k = 0).
      { pose proof (f_equal slot_start_time Heq) as H1.
        cbn [slot_start_time] in H1.
        change (hm 9 0) with 540 in H1.
        change (Employee.start_time tom) with 540 in H1. lia. }
      subst k.
      specialize (Hfree _ (or_introl eq_refl) eq_refl eq_refl
                    ltac:(discriminate)).
      cbn in Hfree. lia.
Defined.

Example availability_half_open_boundary :
  get_employee_availability shop2 3 monday
  = Returned [mkSlot (hm 9 30) (hm 10 0) true].
Proof. reflexivity. Qed.

(** ** The search for the next free slot *)

(** The availability query returns, for every identifier and every date
    before the last one of the calendar, and its slots are in increasing
    order. *)
Lemma availability_total (s : Session) (employee_id : Z) (d : date) :
  valid_session s ->
  1 <= d < max_ordinal ->
  exists slots : list Slot,
    get_employee_availability s employee_id d = Returned slots
    /\ StronglySorted starts_before slots.
Proof.
  intros Hvalid Hd.
  destruct (get_employee s employee_id) as [employee|] eqn:He.
  - destruct (str_in (strftime_a d)
                (split_comma (Employee.working_days employee))) eqn:Hday.
    + assert (Hin : In employee (employees s))
        by (unfold get_employee in He; now apply find_some in He).
      unfold valid_session in Hvalid. rewrite Forall_forall in Hvalid.
      destruct (Hvalid employee Hin) as [Hs Hend].
      destruct (availability_working_day s employee_id d employee
                  He Hday Hs Hend Hd) as (cs & Hrun & Hcs & Hsorted).
      exists (map slot_at cs). split; [exact Hrun|].
      apply (sorted_slots_of_day d); [|exact Hsorted].
      intros c Hc. apply Hcs in Hc as ((k & Hk & ->) & Hc & _).
      calendar.
    + exists []. split; [|constructor].
      unfold get_employee_availability. rewrite He. cbv zeta. now rewrite Hday.
  - exists []. split; [|constructor].
    unfold get_employee_availability. now rewrite He.
Qed.

(** The head of a sorted slot list is its earliest slot. *)
Lemma sorted_head_earliest (slot : Slot) (rest : list Slot) :
  StronglySorted starts_before (slot :: rest) ->
  forall sl, In sl rest -> slot_start_time slot < slot_start_time sl.
Proof.
  intros H sl Hsl. apply StronglySorted_inv in H as [_ H].
  rewrite Forall_forall in H. now apply H.
Qed.

(** The inner loop over the employees of the shop stops at the first one
    with a free slot. *)
Lemma first_free_employee_spec (s : Session) (d : date) (emps : list Employee.t) :
  valid_session s ->
  1 <= d < max_ordinal ->
  exists r : option NextSlot,
    first_free_employee s d emps = Returned r
    /\ match r with
       | None =>
           forall e, In e emps ->
                     get_employee_availability s (Employee.id e) d = Returned []
       | Some ns =>
           exists (pre : list Employee.t) (emp : Employee.t)
                  (post : list Employee.t) (slot : Slot) (rest : list Slot),
             emps = pre ++ emp :: post
             /\ (forall e, In e pre ->
                   get_employee_availability s (Employee.id e) d = Returned [])
             /\ get_employee_availability s (Employee.id emp) d
                = Returned (slot :: rest)
             /\ ns = mkNextSlot (Employee.id emp) (Some (Employee.name emp)) d
                       (slot_start_time slot)
       end.
Proof.
  intros Hvalid Hd. induction emps as [|emp emps IH]; cbn [first_free_employee].
  - exists None. split; [reflexivity|]. intros e [].
  - destruct (availability_total s (Employee.id emp) d Hvalid Hd)
      as (slots & Hrun & _).
    rewrite Hrun. cbn [bind]. destruct slots as [|slot rest].
    + destruct IH as (r & Hr & Hspec). exists r. split; [exact Hr|].
      destruct r as [ns|].
      * destruct Hspec as (pre & emp' & post & slot & rest & -> & Hpre & Hfree & ->).
        exists (emp :: pre), emp', post, slot, rest.
        split; [reflexivity|]. split; [|split; [exact Hfree | reflexivity]].
        intros e [<-|He]; [exact Hrun | now apply Hpre].
      * intros e [<-|He]; [exact Hrun | now apply Hspec].
    + eexists. split; [reflexivity|].
      exists [], emp, emps, slot, rest.
      split; [reflexivity|]. split; [intros e []|]. split; [exact Hrun | reflexivity].
Qed.

Lemma date_add_in_range (today : date) (j : Z) :
  1 <= today + j <= max_ordinal -> date_add today j = Returned (today + j).
Proof.
  intros H. unfold date_add. cbv zeta.
  destruct (1 <=? today + j) eqn:E1; [|apply Z.leb_gt in E1; lia].
  destruct (today + j <=? max_ordinal) eqn:E2; [|apply Z.leb_gt in E2; lia].
  reflexivity.
Qed.

(** The outer loop, staff-scoped, over the days [a, a + n). *)
Lemma next_slot_loop_staff (s : Session) (today : date)
  (employee_id shop_id : option Z) (eid : Z) (n a : nat) :
  truthy employee_id = Some eid ->
  valid_session s ->
  1 <= today ->
  today + Z.of_nat (a + n) <= max_ordinal ->
  exists r : option NextSlot,
    next_slot_loop s today employee_id shop_id (map Z.of_nat (seq a n))
    = Returned r
    /\ match r with
       | None =>
           forall j, Z.of_nat a <= j < Z.of_nat (a + n) ->
                     get_employee_availability s eid (today + j) = Returned []
       | Some ns =>
           exists (k : Z) (slot : Slot) (rest : list Slot),
             Z.of_nat a <= k < Z.of_nat (a + n)
             /\ (forall j, Z.of_nat a <= j < k ->
                   get_employee_availability s eid (today + j) = Returned [])
             /\ get_employee_availability s eid (today + k)
                = Returned (slot :: rest)
             /\ ns = mkNextSlot eid None (today + k) (slot_start_time slot)
       end.
Proof.
  intros Heid Hvalid Htoday. revert a.
  induction n as [|n IH]; intros a Hmax; cbn [seq map next_slot_loop].
  - exists None. split; [reflexivity|]. intros j Hj. lia.
  - rewrite date_add_in_range by lia. cbn [bind]. rewrite Heid.
    destruct (availability_total s eid (today + Z.of_nat a) Hvalid)
      as (slots & Hrun & _); [lia|].
    rewrite Hrun. cbn [bind]. destruct slots as [|slot rest].
    + destruct (IH (S a)) as (r & Hr & Hspec); [lia|].
      exists r. split; [exact Hr|]. destruct r as [ns|].
      * destruct Hspec as (k & slot & rest & Hk & Hbefore & Hfree & ->).
        exists k, slot, rest. split; [lia|].
        split; [|split; [exact Hfree | reflexivity]].
        intros j Hj. destruct (Z.eq_dec j (Z.of_nat a)) as [->|Hne];
          [exact Hrun | apply Hbefore; lia].
      * intros j Hj. destruct (Z.eq_dec j (Z.of_nat a)) as [->|Hne];
          [exact Hrun | apply Hspec; lia].
    + eexists. split; [reflexivity|].
      exists (Z.of_nat a), slot, rest. split; [lia|].
      split; [intros j Hj; lia|]. split; [exact Hrun | reflexivity].
Qed.

(** The outer loop, shop-wide, over the days [a, a + n). *)
Lemma next_slot_loop_shop (s : Session) (today : date)
  (employee_id shop_id : option Z) (sid : Z) (n a : nat) :
  truthy employee_id = None ->
  truthy shop_id = Some sid ->
  valid_session s ->
  1 <= today ->
  today + Z.of_nat (a + n) <= max_ordinal ->
  exists r : option NextSlot,
    next_slot_loop s today employee_id shop_id (map Z.of_nat (seq a n))
    = Returned r
    /\ match r with
       | None =>
           forall j e, Z.of_nat a <= j < Z.of_nat (a + n) ->
                       In e (active_employees s sid) ->
                       get_employee_availability s (Employee.id e) (today + j)
                       = Returned []
       | Some ns =>
           exists (k : Z) (pre : list Employee.t) (emp : Employee.t)
                  (post : list Employee.t) (slot : Slot) (rest : list Slot),
             Z.of_nat a <= k < Z.of_nat (a + n)
             /\ active_employees s sid = pre ++ emp :: post
             /\ (forall j e, Z.of_nat a <= j < k ->
                             In e (active_employees s sid) ->
                             get_employee_availability s (Employee.id e) (today + j)
                             = Returned [])
             /\ (forall e, In e pre ->
                           get_employee_availability s (Employee.id e) (today + k)
                           = Returned [])
             /\ get_employee_availability s (Employee.id emp) (today + k)
                = Returned (slot :: rest)
             /\ ns = mkNextSlot (Employee.id emp) (Some (Employee.name emp))
                       (today + k) (slot_start_time slot)
       end.
Proof.
  intros Heid Hsid Hvalid Htoday. revert a.
  induction n as [|n IH]; intros a Hmax; cbn [seq map next_slot_loop].
  - exists None. split; [reflexivity|]. intros j e Hj. lia.
  - rewrite date_add_in_range by lia. cbn [bind]. rewrite Heid, Hsid.
    destruct (first_free_employee_spec s (today + Z.of_nat a)
                (active_employees s sid) Hvalid)
      as (found & Hrun & Hfound); [lia|].
    rewrite Hrun. cbn [bind]. destruct found as [ns|].
    + exists (Some ns). split; [reflexivity|].
      destruct Hfound as (pre & emp & post & slot & rest & Hsplit & Hpre & Hfree & ->).
      exists (Z.of_nat a), pre, emp, post, slot, rest. split; [lia|].
      split; [exact Hsplit|]. split; [intros j e Hj; lia|].
      split; [exact Hpre|]. split; [exact Hfree | reflexivity].
    + destruct (IH (S a)) as (r & Hr & Hspec); [lia|].
      exists r. split; [exact Hr|]. destruct r as [ns|].
      * destruct Hspec
          as (k & pre & emp & post & slot & rest & Hk & Hsplit & Hbefore & Hpre
              & Hfree & ->).
        exists k, pre, emp, post, slot, rest. split; [lia|].
        split; [exact Hsplit|].
        split; [|split; [exact Hpre | split; [exact Hfree | reflexivity]]].
        intros j e Hj He. destruct (Z.eq_dec j (Z.of_nat a)) as [->|Hne];
          [now apply Hfound | apply Hbefore; [lia | exact He]].
      * intros j e Hj He. destruct (Z.eq_dec j (Z.of_nat a)) as [->|Hne];
          [now apply Hfound | apply Hspec; [lia | exact He]].
Qed.

(** C5. The search looks at the 30 dates [today], [today + 1], ...,
    [today + 29] in this order and always returns.  Staff-scoped it returns
    the first of these dates on which the employee has a free slot, with the
    first and earliest slot of that date.  Shop-wide it returns the first
    date on which some active employee of the shop has a free slot, with the
    first such employee in table order and that employee's earliest slot.
    When no date of the horizon has a free slot the result is [None],
    returned and not raised. *)
Theorem next_available_slot_spec (today : date) (s : Session)
  (employee_id shop_id : option Z) :
  valid_session s ->
  1 <= today ->
  today + 30 <= max_ordinal ->
  exists r : option NextSlot,
    get_next_available_slot today s employee_id shop_id = Returned r
    /\ (forall eid : Z,
          employee_id = Some eid -> eid <> 0 ->
          match r with
          | None =>
              forall j, 0 <= j < 30 ->
                        get_employee_availability s eid (today + j) = Returned []
          | Some ns =>
              exists (k : Z) (slot : Slot) (rest : list Slot),
                0 <= k < 30
                /\ (forall j, 0 <= j < k ->
                      get_employee_availability s eid (today + j) = Returned [])
                /\ get_employee_availability s eid (today + k)
                   = Returned (slot :: rest)
                /\ (forall sl, In sl rest ->
                               slot_start_time slot < slot_start_time sl)
                /\ ns = mkNextSlot eid None (today + k) (slot_start_time slot)
          end)
    /\ (forall sid : Z,
          employee_id = None \/ employee_id = Some 0 ->
          shop_id = Some sid -> sid <> 0 ->
          match r with
          | None =>
              forall j e, 0 <= j < 30 ->
                          In e (active_employees s sid) ->
                          get_employee_availability s (Employee.id e) (today + j)
                          = Returned []
          | Some ns =>
              exists (k : Z) (pre : list Employee.t) (emp : Employee.t)
                     (post : list Employee.t) (slot : Slot) (rest : list Slot),
                0 <= k < 30
                /\ active_employees s sid = pre ++ emp :: post
                /\ (forall j e, 0 <= j < k ->
                                In e (active_employees s sid) ->
                                get_employee_availability s (Employee.id e)
                                  (today + j) = Returned [])
                /\ (forall e, In e pre ->
                              get_employee_availability s (Employee.id e)
                                (today + k) = Returned [])
                /\ get_employee_availability s (Employee.id emp) (today + k)
                   = Returned (slot :: rest)
                /\ (forall sl, In sl rest ->
                               slot_start_time slot < slot_start_time sl)
                /\ ns = mkNextSlot (Employee.id emp) (Some (Employee.name emp))
                          (today + k) (slot_start_time slot)
          end).
Proof.
  intros Hvalid Htoday Hmax. unfold get_next_available_slot, range, max_days_ahead.
  assert (Hearliest : forall eid k slot rest,
            0 <= k < 30 ->
            get_employee_availability s eid (today + k) = Returned (slot :: rest) ->
            forall sl, In sl rest -> slot_start_time slot < slot_start_time sl).
  { intros eid k slot rest Hk Hrun.
    destruct (availability_total s eid (today + k) Hvalid) as (slots & Hrun' & Hs);
      [lia|].
    rewrite Hrun in Hrun'. injection Hrun' as <-.
    now apply sorted_head_earliest. }
  destruct (truthy employee_id) as [eid|] eqn:Heid.
  - (* staff-scoped *)
    destruct (next_slot_loop_staff s today employee_id shop_id eid 30 0
                Heid Hvalid Htoday) as (r & Hr & Hspec); [cbn; lia|].
    exists r. split; [exact Hr|]. split.
    + intros eid' -> Hne. unfold truthy in Heid.
      destruct (eid' =? 0) eqn:E; [apply Z.eqb_eq in E; contradiction|].
      injection Heid as <-. destruct r as [ns|].
      * destruct Hspec as (k & slot & rest & Hk & Hbefore & Hfree & ->).
        exists k, slot, rest. cbn in Hk.
        split; [lia|]. split; [intros j Hj; apply Hbefore; cbn; lia|].
        split; [exact Hfree|]. split; [|reflexivity].
        apply (Hearliest eid' k); [lia | exact Hfree].
      * intros j Hj. apply Hspec. cbn. lia.
    + intros sid [->| ->] _ _; cbn in Heid; discriminate Heid.
  - (* not staff-scoped *)
    assert (Hnot : forall eid, employee_id = Some eid -> eid <> 0 -> False).
    { intros eid -> Hne. cbn in Heid.
      destruct (eid =? 0) eqn:E; [apply Z.eqb_eq in E; contradiction|discriminate]. }
    destruct (truthy shop_id) as [sid|] eqn:Hsid.
    + destruct (next_slot_loop_shop s today employee_id shop_id sid 30 0
                  Heid Hsid Hvalid Htoday) as (r & Hr & Hspec); [cbn; lia|].
      exists r. split; [exact Hr|]. split.
      * intros eid He Hne. destruct (Hnot eid He Hne).
      * intros sid' _ -> Hne. unfold truthy in Hsid.
        destruct (sid' =? 0) eqn:E; [apply Z.eqb_eq in E; contradiction|].
        injection Hsid as <-. destruct r as [ns|].
        -- destruct Hspec
             as (k & pre & emp & post & slot & rest & Hk & Hsplit & Hbefore & Hpre
                 & Hfree & ->).
           exists k, pre, emp, post, slot, rest. cbn in Hk.
           split; [lia|]. split; [exact Hsplit|].
           split; [intros j e Hj He; apply Hbefore; [cbn; lia | exact He]|].
           split; [exact Hpre|]. split; [exact Hfree|]. split; [|reflexivity].
           apply (Hearliest (Employee.id emp) k); [lia | exact Hfree].
        -- intros j e Hj He. apply Hspec; [cbn; lia | exact He].
    + (* neither argument given: the loop finds nothing *)
      exists None. split.
      * assert (Hgo : forall n a, today + Z.of_nat (a + n) <= max_ordinal ->
                  next_slot_loop s today employee_id shop_id
                    (map Z.of_nat (seq a n)) = Returned None).
        { induction n as [|n IH]; intros b Hb; cbn [seq map next_slot_loop];
            [reflexivity|].
          rewrite date_add_in_range by lia. cbn [bind]. rewrite Heid, Hsid.
          apply IH. lia. }
        apply (Hgo 30%nat 0%nat). cbn. lia.
      * split.
        -- intros eid He Hne. destruct (Hnot eid He Hne).
        -- intros sid _ -> Hne. cbn in Hsid.
           destruct (sid =? 0) eqn:E; [apply Z.eqb_eq in E; contradiction|discriminate].
Qed.

Lemma shop1_valid : valid_session shop1.
Proof.
  unfold valid_session, valid_time, minutes_per_day.
  repeat constructor; cbn; lia.
Qed.

(** Sarah works Tuesdays and Wednesdays from 10:00: searched from a Monday,
    her next slot is Tuesday 10:00. *)
Lemma next_available_slot_spec_witness :
  exists r : option NextSlot,
    get_next_available_slot monday shop1 (Some 2) None = Returned r
    /\ r = Some (mkNextSlot 2 None (monday + 1) (hm 10 0)).
Proof.
  destruct (next_available_slot_spec monday shop1 (Some 2) None)
    as (r & Hr & _).
  - exact shop1_valid.
  - unfold monday. lia.
  - unfold monday, max_ordinal. lia.
  - exists r. split; [exact Hr|].
    vm_compute in Hr. injection Hr as <-. reflexivity.
Defined.

Example horizon_exhausted :
  get_next_available_slot monday (mkSession [idle] [] [] []) (Some 4) None
  = Returned None
  /\ get_next_available_slot monday (mkSession [idle] [] [] []) None (Some 3)
     = Returned None.
Proof. split; reflexivity. Qed.

(** Shop-wide from a Monday: Mike, first in the table, is free at 09:00. *)
Example next_available_slot_shop :
  get_next_available_slot monday shop1 None (Some 1)
  = Returned (Some (mkNextSlot 1 (Some "Mike Johnson") monday (hm 9 0))).
Proof. reflexivity. Qed.

(** * Further properties of the booking manager *)

(** ** Fresh keys *)

Lemma next_id_above (ids : list Z) (x : Z) : In x ids -> x < next_id ids.
Proof.
  unfold next_id. induction ids as [|y ids IH]; cbn [fold_right In].
  - intros [].
  - intros [->|Hx]; [lia|]. specialize (IH Hx). lia.
Qed.

Lemma next_id_fresh (ids : list Z) : ~ In (next_id ids) ids.
Proof. intros H. apply next_id_above in H. lia. Qed.

Lemma next_id_positive (ids : list Z) : 1 <= next_id ids.
Proof.
  unfold next_id. induction ids as [|y ids IH]; cbn [fold_right]; lia.
Qed.

Lemma NoDup_snoc {A : Type} (l : list A) (x : A) :
  NoDup l -> ~ In x l -> NoDup (l ++ [x]).
Proof.
  intros Hl Hx. induction Hl as [|y l Hy Hl IH]; cbn.
  - constructor; [intros []|constructor].
  - constructor.
    + rewrite in_app_iff. intros [H|[->|[]]]; [now apply Hy|].
      apply Hx. now left.
    + apply IH. intros H. apply Hx. now right.
Qed.

Lemma find_app_found {A : Type} (p : A -> bool) (l l' : list A) (x : A) :
  find p l = Some x -> find p (l ++ l') = Some x.
Proof.
  induction l as [|a l IH]; cbn; [discriminate|].
  destruct (p a); [trivial | exact IH].
Qed.

Lemma find_id_fresh {A : Type} (key : A -> Z) (l : list A) (x : A) :
  key x = next_id (map key l) ->
  find (fun a => key a =? next_id (map key l)) (l ++ [x]) = Some x.
Proof.
  intros Hx. apply find_app_new; [|rewrite Hx; apply Z.eqb_refl].
  apply find_none_of_forall. intros a Ha. apply Z.eqb_neq.
  pose proof (next_id_above (map key l) (key a) (in_map key l a Ha)). lia.
Qed.

(** ** Invariants of the sessions the operations build *)

Lemma appointment_consistent_extends (s s' : Session) (a : Appointment.t)
  (es : list Employee.t) (cs : list Customer.t) :
  employees s' = employees s ++ es ->
  customers s' = customers s ++ cs ->
  appointment_consistent s a -> appointment_consistent s' a.
Proof.
  intros He Hc (Hs & Hen & (e & Hge & Hshop) & (c & Hin & Hid) & Hst).
  split; [exact Hs|]. split; [exact Hen|]. split; [|split; [|exact Hst]].
  - exists e. split; [|exact Hshop].
    unfold get_employee in *. rewrite He. now apply find_app_found.
  - exists c. split; [|exact Hid]. rewrite Hc. apply in_or_app. now left.
Qed.

Lemma well_formed_empty : well_formed empty_session.
Proof.
  unfold well_formed, valid_session, keys_unique, empty_session. cbn.
  repeat split; constructor.
Qed.

Lemma well_formed_add_employee (s : Session) (shop_id : Z)
  (name phone working_days start_time end_time : string) :
  well_formed s ->
  well_formed (snd (add_employee s shop_id name phone working_days
                      start_time end_time)).
Proof.
  intros Hwf. unfold add_employee.
  destruct (strptime_HM start_time) as [st|] eqn:Hst; [|exact Hwf].
  destruct (strptime_HM end_time) as [en|] eqn:Hen; [|exact Hwf].
  destruct Hwf as (Hv & (Hke & Hkc & Hkp & Hks & Hka) & Happ).
  cbn [snd]. unfold well_formed, valid_session, keys_unique. cbn [employees
    customers services appointments].
  split; [|split].
  - apply Forall_app. split; [exact Hv|]. constructor; [|constructor].
    cbn. split; eapply strptime_HM_valid; eassumption.
  - repeat split; try assumption.
    rewrite map_app. cbn [map Employee.id]. apply NoDup_snoc; [exact Hke|].
    apply next_id_fresh.
  - eapply Forall_impl; [|exact Happ]. intros a Ha.
    eapply (appointment_consistent_extends s _ a _ []); [reflexivity| |exact Ha].
    cbn. now rewrite app_nil_r.
Qed.

Lemma well_formed_add_service (s : Session) (shop_id : Z) (name : string)
  (duration_minutes : Z) :
  well_formed s -> well_formed (snd (add_service s shop_id name duration_minutes)).
Proof.
  intros (Hv & (Hke & Hkc & Hkp & Hks & Hka) & Happ).
  unfold add_service, well_formed, valid_session, keys_unique. cbn.
  split; [exact Hv|]. split.
  - repeat split; try assumption.
    rewrite map_app. cbn [map Service.id]. apply NoDup_snoc; [exact Hks|].
    apply next_id_fresh.
  - eapply Forall_impl; [|exact Happ]. intros a Ha.
    eapply (appointment_consistent_extends s _ a [] []); [| |exact Ha];
      cbn; now rewrite app_nil_r.
Qed.

Lemma well_formed_register_customer (s : Session) (name phone : string) :
  well_formed s -> well_formed (snd (register_customer s name phone)).
Proof.
  intros Hwf. unfold register_customer.
  destruct (find _ (customers s)) as [c|] eqn:Hfind; [exact Hwf|].
  destruct Hwf as (Hv & (Hke & Hkc & Hkp & Hks & Hka) & Happ).
  unfold well_formed, valid_session, keys_unique. cbn.
  split; [exact Hv|]. split.
  - repeat split; try assumption.
    + rewrite map_app. cbn [map Customer.id]. apply NoDup_snoc; [exact Hkc|].
      apply next_id_fresh.
    + rewrite map_app. cbn [map Customer.phone]. apply NoDup_snoc; [exact Hkp|].
      intros Hin. apply in_map_iff in Hin as (c & Hc & Hin).
      pose proof (find_none _ _ Hfind c Hin) as Hne. cbn in Hne.
      rewrite Hc, String.eqb_refl in Hne. discriminate.
  - eapply Forall_impl; [|exact Happ]. intros a Ha.
    eapply (appointment_consistent_extends s _ a []); [|reflexivity|exact Ha].
    cbn. now rewrite app_nil_r.
Qed.

Lemma register_customer_in (s : Session) (name phone : string) :
  In (fst (register_customer s name phone))
     (customers (snd (register_customer s name phone))).
Proof.
  pose proof (register_customer_lookup s name phone) as H.
  now apply find_some in H.
Qed.

Lemma well_formed_book_appointment (today : date) (s : Session) (employee_id : Z)
  (customer_phone customer_name : string) (d : date) (start_time : string)
  (service_id : option Z) (notes : string) :
  well_formed s ->
  well_formed (snd (book_appointment today s employee_id customer_phone
                      customer_name d start_time service_id notes)).
Proof.
  intros Hwf.
  apply (well_formed_register_customer s customer_name customer_phone) in Hwf.
  rewrite book_appointment_eq. cbv zeta.
  pose proof (register_customer_in s customer_name customer_phone) as Hcust.
  pose proof (register_customer_get_employee s customer_name customer_phone
                employee_id) as Hge.
  pose proof (register_customer_appointments s customer_name customer_phone) as Hap.
  set (s1 := snd (register_customer s customer_name customer_phone)) in *.
  set (customer := fst (register_customer s customer_name customer_phone)) in *.
  destruct (get_employee s employee_id) as [employee|] eqn:He; [|exact Hwf].
  destruct (strptime_HM start_time) as [start|] eqn:Hs; [|exact Hwf].
  destruct (in_datetime_range _); [|exact Hwf].
  destruct (find _ _); [exact Hwf|]. cbn [snd].
  destruct Hwf as (Hv & (Hke & Hkc & Hkp & Hks & Hka) & Happ).
  unfold well_formed, valid_session, keys_unique. cbn [employees customers
    services appointments].
  rewrite <- Hap.
  split; [exact Hv|]. split.
  - repeat split; try assumption.
    rewrite map_app. cbn [map Appointment.id]. apply NoDup_snoc; [exact Hka|].
    apply next_id_fresh.
  - apply Forall_app. split.
    + eapply Forall_impl; [|exact Happ]. intros a Ha.
      eapply (appointment_consistent_extends s1 _ a [] []); [| |exact Ha];
        cbn; now rewrite app_nil_r.
    + constructor; [|constructor].
      unfold appointment_consistent. cbn.
      split; [eapply strptime_HM_valid; eassumption|].
      split; [unfold valid_time; apply Z.mod_pos_bound; reflexivity|].
      split; [exists employee; unfold get_employee in *; cbn; now rewrite Hge|].
      split; [exists customer; now split|]. now left.
Qed.

Lemma cancel_row_ids (appointment_id : Z) (rows : list Appointment.t) :
  map Appointment.id (cancel_row appointment_id rows) = map Appointment.id rows.
Proof.
  induction rows as [|a rows IH]; cbn; [reflexivity|].
  destruct (Appointment.id a =? appointment_id); cbn; [reflexivity|].
  now rewrite IH.
Qed.

Lemma Forall_cancel_row (P : Appointment.t -> Prop) (appointment_id : Z)
  (rows : list Appointment.t) :
  (forall a, P a -> P (set_cancelled a)) ->
  Forall P rows -> Forall P (cancel_row appointment_id rows).
Proof.
  intros Hset Hrows. induction Hrows as [|a rows Ha Hrows IH]; cbn;
    [constructor|].
  destruct (Appointment.id a =? appointment_id); constructor; auto.
Qed.

Lemma well_formed_cancel_appointment (s : Session) (appointment_id : Z) :
  well_formed s -> well_formed (snd (cancel_appointment s appointment_id)).
Proof.
  intros Hwf. unfold cancel_appointment.
  destruct (find _ _); [|exact Hwf]. cbn [snd].
  destruct Hwf as (Hv & (Hke & Hkc & Hkp & Hks & Hka) & Happ).
  unfold well_formed, valid_session, keys_unique. cbn [employees customers
    services appointments].
  split; [exact Hv|]. split.
  - rewrite cancel_row_ids. repeat split; assumption.
  - apply Forall_cancel_row.
    + intros a (H1 & H2 & H3 & H4 & _).
      unfold appointment_consistent. cbn.
      split; [exact H1|]. split; [exact H2|]. split; [exact H3|].
      split; [exact H4|]. now right.
    + eapply Forall_impl; [|exact Happ]. intros a Ha.
      eapply (appointment_consistent_extends s _ a [] []); [| |exact Ha];
        cbn; now rewrite app_nil_r.
Qed.

Lemma reachable_well_formed (s : Session) : reachable s -> well_formed s.
Proof.
  induction 1.
  - exact well_formed_empty.
  - now apply well_formed_add_employee.
  - now apply well_formed_add_service.
  - now apply well_formed_register_customer.
  - now apply well_formed_book_appointment.
  - now apply well_formed_cancel_appointment.
Qed.

Lemma shop3_reachable : reachable shop3.
Proof.
  unfold shop3. cbv zeta.
  apply reachable_book_appointment, reachable_add_service,
    reachable_add_employee, reachable_empty.
Qed.

(** X1. In a session built by the operations every employee works between two
    times of day, and every appointment starts and ends at a time of day:
    no time enters the store but through [strptime] or the wrap of the end
    time. *)
Theorem reachable_times_valid (s : Session) :
  reachable s ->
  valid_session s
  /\ forall a, In a (appointments s) ->
               valid_time (Appointment.start_time a)
               /\ valid_time (Appointment.end_time a).
Proof.
  intros Hr. apply reachable_well_formed in Hr as (Hv & _ & Happ).
  split; [exact Hv|]. intros a Ha. rewrite Forall_forall in Happ.
  destruct (Happ a Ha) as (H1 & H2 & _). now split.
Qed.

Lemma reachable_times_valid_witness :
  valid_session shop3
  /\ forall a, In a (appointments shop3) ->
               valid_time (Appointment.start_time a)
               /\ valid_time (Appointment.end_time a).
Proof. apply reachable_times_valid. exact shop3_reachable. Defined.

(** X2. In a session built by the operations the primary keys of the four
    tables are unique, and so are the phone numbers of the customers. *)
Theorem reachable_keys_unique (s : Session) : reachable s -> keys_unique s.
Proof. intros Hr. now apply reachable_well_formed in Hr as (_ & Hk & _). Qed.

Lemma reachable_keys_unique_witness : keys_unique shop3.
Proof. apply reachable_keys_unique. exact shop3_reachable. Defined.

(** X3. In a session built by the operations every appointment points to an
    employee and to a customer that exist, carries the shop of that
    employee, and has status [scheduled] or [cancelled]. *)
Theorem reachable_appointments_consistent (s : Session) (a : Appointment.t) :
  reachable s ->
  In a (appointments s) ->
  (exists e, get_employee s (Appointment.employee_id a) = Some e
             /\ Appointment.shop_id a = Employee.shop_id e)
  /\ (exists c, In c (customers s)
                /\ Customer.id c = Appointment.customer_id a)
  /\ (Appointment.status a = "scheduled" \/ Appointment.status a = "cancelled").
Proof.
  intros Hr Ha. apply reachable_well_formed in Hr as (_ & _ & Happ).
  rewrite Forall_forall in Happ.
  destruct (Happ a Ha) as (_ & _ & H3 & H4 & H5). auto.
Qed.

Lemma reachable_appointments_consistent_witness :
  exists a, In a (appointments shop3)
            /\ (exists e, get_employee shop3 (Appointment.employee_id a) = Some e
                          /\ Appointment.shop_id a = Employee.shop_id e)
            /\ (exists c, In c (customers shop3)
                          /\ Customer.id c = Appointment.customer_id a)
            /\ (Appointment.status a = "scheduled"
                \/ Appointment.status a = "cancelled").
Proof.
  eexists. split; [left; reflexivity|].
  apply reachable_appointments_consistent;
    [exact shop3_reachable | left; reflexivity].
Defined.

(** ** Adding employees and services *)

(** X4. An employee that [add_employee] returns is found again under the
    key it was given, is active and works between two times of day; the
    employees that resolved before resolve to the same rows, and no other
    table changes.  When one of the two times does not parse, the call
    raises and the session is the one given. *)
Theorem add_employee_lookup (s : Session) (shop_id : Z)
  (name phone working_days start_time end_time : string) :
  match add_employee s shop_id name phone working_days start_time end_time with
  | (Returned employee, s') =>
      get_employee s' (Employee.id employee) = Some employee
      /\ strptime_HM start_time = Returned (Employee.start_time employee)
      /\ strptime_HM end_time = Returned (Employee.end_time employee)
      /\ valid_time (Employee.start_time employee)
      /\ valid_time (Employee.end_time employee)
      /\ Employee.is_active employee = true
      /\ Employee.working_days employee = working_days
      /\ (forall (employee_id : Z) (e : Employee.t),
            get_employee s employee_id = Some e ->
            get_employee s' employee_id = Some e)
      /\ customers s' = customers s
      /\ services s' = services s
      /\ appointments s' = appointments s
  | (Raised e, s') =>
      s' = s
      /\ (strptime_HM start_time = Raised e
          \/ strptime_HM end_time = Raised e)
  end.
Proof.
  unfold add_employee.
  destruct (strptime_HM start_time) as [st|e] eqn:Hst; [|auto].
  destruct (strptime_HM end_time) as [en|e] eqn:Hen; [|auto].
  cbn [Employee.id Employee.start_time Employee.end_time Employee.is_active
       Employee.working_days customers services appointments].
  split.
  { unfold get_employee. cbn [employees].
    apply (find_id_fresh Employee.id (employees s)). reflexivity. }
  split; [reflexivity|]. split; [reflexivity|].
  split; [eapply strptime_HM_valid; eassumption|].
  split; [eapply strptime_HM_valid; eassumption|].
  split; [reflexivity|]. split; [reflexivity|]. split; [|auto].
  intros employee_id e0 He0. unfold get_employee in *. cbn [employees].
  now apply find_app_found.
Qed.

(** X5. A service that [add_service] returns has a key that is not zero, so
    [book_appointment], which takes a zero service identifier for a missing
    one, uses the duration of the service just added. *)
Theorem add_service_then_book (s : Session) (shop_id : Z) (name : string)
  (duration_minutes : Z) :
  let '(service, s') := add_service s shop_id name duration_minutes in
  Service.id service <> 0
  /\ get_service s' (Service.id service) = Some service
  /\ booking_duration s' (Some (Service.id service)) = duration_minutes
  /\ (forall (service_id : Z) (v : Service.t),
        get_service s service_id = Some v ->
        get_service s' service_id = Some v).
Proof.
  unfold add_service. cbn [Service.id].
  pose proof (next_id_positive (map Service.id (services s))) as Hpos.
  assert (Hget : get_service
                   (mkSession (employees s) (customers s)
                      (services s
                       ++ [Service.mk (next_id (map Service.id (services s)))
                             shop_id name duration_minutes])
                      (appointments s))
                   (next_id (map Service.id (services s)))
                 = Some (Service.mk (next_id (map Service.id (services s)))
                           shop_id name duration_minutes)).
  { unfold get_service. cbn [services].
    apply (find_id_fresh Service.id (services s)). reflexivity. }
  split; [lia|]. split; [exact Hget|]. split.
  - unfold booking_duration, truthy.
    destruct (next_id (map Service.id (services s)) =? 0) eqn:E;
      [apply Z.eqb_eq in E; lia|].
    now rewrite Hget.
  - intros service_id v Hv. unfold get_service in *. cbn [services].
    now apply find_app_found.
Qed.

(** ** Cancelling *)

Lemma cancel_row_absent (appointment_id : Z) (rows : list Appointment.t) :
  (forall a, In a rows -> Appointment.id a <> appointment_id) ->
  cancel_row appointment_id rows = rows.
Proof.
  induction rows as [|a rows IH]; cbn; intros H; [reflexivity|].
  destruct (Appointment.id a =? appointment_id) eqn:E.
  - apply Z.eqb_eq in E. now destruct (H a (or_introl eq_refl)).
  - f_equal. apply IH. intros b Hb. apply H. now right.
Qed.

Lemma cancel_row_unique (appointment_id : Z) (rows : list Appointment.t) :
  NoDup (map Appointment.id rows) ->
  cancel_row appointment_id rows
  = map (fun a => if Appointment.id a =? appointment_id
                  then set_cancelled a else a) rows.
Proof.
  induction rows as [|a rows IH]; cbn; intros Hnd; [reflexivity|].
  apply NoDup_cons_iff in Hnd as [Ha Hnd].
  destruct (Appointment.id a =? appointment_id) eqn:E.
  - f_equal. apply Z.eqb_eq in E. subst appointment_id.
    rewrite <- (cancel_row_absent (Appointment.id a) rows) at 1.
    + apply IH, Hnd.
    + intros b Hb Heq. apply Ha. rewrite <- Heq. now apply in_map.
  - f_equal. apply IH, Hnd.
Qed.

(** X6. [cancel_appointment] deletes nothing and rewrites one field: it
    answers whether a row has the key, and, the keys being unique, the
    appointment table afterwards is the one before with the status of that
    row set to [cancelled]; the other tables are untouched, and for an
    unknown key so is the whole session. *)
Theorem cancel_appointment_effect (s : Session) (appointment_id : Z) :
  NoDup (map Appointment.id (appointments s)) ->
  let '(success, s') := cancel_appointment s appointment_id in
  (success = true <-> In appointment_id (map Appointment.id (appointments s)))
  /\ (success = false -> s' = s)
  /\ employees s' = employees s
  /\ customers s' = customers s
  /\ services s' = services s
  /\ appointments s'
     = map (fun a => if Appointment.id a =? appointment_id
                     then set_cancelled a else a) (appointments s).
Proof.
  intros Hnd. unfold cancel_appointment.
  destruct (find _ _) as [a|] eqn:Hf.
  - cbn [employees customers services appointments].
    split; [split; [intros _|reflexivity]|].
    { apply find_some in Hf as [Hin Hid]. apply Z.eqb_eq in Hid.
      rewrite <- Hid. now apply in_map. }
    split; [discriminate|]. split; [reflexivity|]. split; [reflexivity|].
    split; [reflexivity|]. now apply cancel_row_unique.
  - split; [split; [discriminate|]|].
    { intros Hin. apply in_map_iff in Hin as (a & Hid & Hin).
      pose proof (find_none _ _ Hf a Hin) as Hne. cbn in Hne.
      apply Z.eqb_neq in Hne. contradiction. }
    split; [reflexivity|]. split; [reflexivity|]. split; [reflexivity|].
    split; [reflexivity|].
    rewrite <- (cancel_row_unique appointment_id _ Hnd).
    symmetry. apply cancel_row_absent. intros a Hin.
    pose proof (find_none _ _ Hf a Hin) as Hne. cbn in Hne.
    now apply Z.eqb_neq in Hne.
Qed.

Lemma cancel_appointment_effect_witness :
  let '(success, s') :=
    cancel_appointment shop3 1 in
  success = true
  /\ map Appointment.status (appointments s') = ["cancelled"]
  /\ map Appointment.id (appointments s') = [1].
Proof.
  pose proof (cancel_appointment_effect shop3 1) as H.
  destruct (cancel_appointment shop3 1) as [success s'].
  destruct H as (Hs & _ & _ & _ & _ & Happ).
  - repeat constructor. intros [].
  - split; [apply Hs; now left|]. rewrite Happ. split; reflexivity.
Defined.

Lemma set_cancelled_twice (a : Appointment.t) :
  set_cancelled (set_cancelled a) = set_cancelled a.
Proof. reflexivity. Qed.

Lemma cancel_row_twice (appointment_id : Z) (rows : list Appointment.t) :
  cancel_row appointment_id (cancel_row appointment_id rows)
  = cancel_row appointment_id rows.
Proof.
  induction rows as [|a rows IH]; cbn; [reflexivity|].
  destruct (Appointment.id a =? appointment_id) eqn:E; cbn.
  - now rewrite E.
  - rewrite E. now rewrite IH.
Qed.

Lemma cancel_row_find (appointment_id : Z) (rows : list Appointment.t)
  (a : Appointment.t) :
  find (fun a => Appointment.id a =? appointment_id) rows = Some a ->
  find (fun a => Appointment.id a =? appointment_id)
       (cancel_row appointment_id rows) = Some (set_cancelled a).
Proof.
  induction rows as [|b rows IH]; cbn; [discriminate|].
  destruct (Appointment.id b =? appointment_id) eqn:E; cbn.
  - intros [= <-]. now rewrite E.
  - rewrite E. exact IH.
Qed.

(** X7. Cancelling is idempotent: a second [cancel_appointment] under the
    same key answers as the first one did and leaves the session the first
    one left. *)
Theorem cancel_appointment_idempotent (s : Session) (appointment_id : Z) :
  cancel_appointment (snd (cancel_appointment s appointment_id)) appointment_id
  = cancel_appointment s appointment_id.
Proof.
  unfold cancel_appointment at 2 3.
  destruct (find _ (appointments s)) as [a|] eqn:Hf; cbn [snd].
  - unfold cancel_appointment. cbn [appointments employees customers services].
    rewrite (cancel_row_find _ _ _ Hf). now rewrite cancel_row_twice.
  - unfold cancel_appointment. now rewrite Hf.
Qed.

(** ** Times on the wire *)

(** The 1440 times of day, each formatted and parsed back. *)
Lemma strftime_strptime_all :
  forallb (fun n => match strptime_HM (strftime_HM (Z.of_nat n)) with
                    | Returned t => t =? Z.of_nat n
                    | Raised _ => false
                    end)
          (seq 0 1440) = true.
Proof. vm_compute. reflexivity. Qed.

Lemma strftime_HM_parses (t : time) :
  valid_time t -> strptime_HM (strftime_HM t) = Returned t.
Proof.
  intros Ht. unfold valid_time, minutes_per_day in Ht.
  pose proof strftime_strptime_all as Hall. rewrite forallb_forall in Hall.
  specialize (Hall (Z.to_nat t)).
  rewrite Z2Nat.id in Hall by lia.
  assert (Hin : In (Z.to_nat t) (seq 0 1440)) by (apply in_seq; lia).
  specialize (Hall Hin).
  destruct (strptime_HM (strftime_HM t)) as [t'|]; [|discriminate].
  apply Z.eqb_eq in Hall. now subst.
Qed.

(** X8. Formatting a time of day with [strftime("%H:%M")] and parsing the
    result with [strptime(_, "%H:%M")] gives the time back. *)
Theorem strftime_strptime (t : time) :
  valid_time t -> strptime_HM (strftime_HM t) = Returned t.
Proof. exact (strftime_HM_parses t). Qed.

Lemma strftime_strptime_witness :
  strftime_HM (hm 9 5) = "09:05"
  /\ strptime_HM (strftime_HM (hm 9 5)) = Returned (hm 9 5).
Proof.
  split; [reflexivity|]. apply strftime_strptime.
  unfold valid_time, hm, minutes_per_day. lia.
Defined.


(** ** Availability and booking together *)

(** The availability of an employee on a date depends on the employee row
    and on the non-cancelled appointments of that employee on that date. *)
Lemma availability_ext (s s' : Session) (employee_id : Z) (d : date) :
  get_employee s' employee_id = get_employee s employee_id ->
  appointments_on s' employee_id d = appointments_on s employee_id d ->
  get_employee_availability s' employee_id d
  = get_employee_availability s employee_id d.
Proof.
  intros He Ha. unfold get_employee_availability. now rewrite He, Ha.
Qed.

Lemma get_employee_valid (s : Session) (employee_id : Z) (e : Employee.t) :
  valid_session s ->
  get_employee s employee_id = Some e ->
  valid_time (Employee.start_time e) /\ valid_time (Employee.end_time e).
Proof.
  intros Hv He. unfold get_employee in He. apply find_some in He as [Hin _].
  unfold valid_session in Hv. rewrite Forall_forall in Hv. now apply Hv.
Qed.

(** What it takes for a slot to be offered, in times of day. *)
Lemma availability_membership (s : Session) (employee_id : Z) (d : date)
  (slots : list Slot) :
  valid_session s ->
  1 <= d < max_ordinal ->
  get_employee_availability s employee_id d = Returned slots ->
  forall sl : Slot,
    In sl slots <->
    exists (employee : Employee.t) (k : Z),
      get_employee s employee_id = Some employee
      /\ str_in (strftime_a d)
           (split_comma (Employee.working_days employee)) = true
      /\ 0 <= k
      /\ sl = mkSlot (Employee.start_time employee + 30 * k)
                     (Employee.start_time employee + 30 * k + 30) true
      /\ Employee.start_time employee + 30 * k + 30
         <= Employee.end_time employee
      /\ forall a, In a (appointments_on s employee_id d) ->
                   Employee.start_time employee + 30 * k + 30
                   <= Appointment.start_time a
                   \/ Appointment.end_time a
                      <= Employee.start_time employee + 30 * k.
Proof.
  intros Hv Hd Hrun sl.
  destruct (get_employee s employee_id) as [employee|] eqn:He.
  2:{ unfold get_employee_availability in Hrun. rewrite He in Hrun.
      injection Hrun as <-. split; [intros []|].
      intros (e & k & H & _). discriminate H. }
  destruct (str_in (strftime_a d)
              (split_comma (Employee.working_days employee))) eqn:Hday.
  2:{ unfold get_employee_availability in Hrun. rewrite He in Hrun.
      cbv zeta in Hrun. rewrite Hday in Hrun. injection Hrun as <-.
      split; [intros []|].
      intros (e & k & H & Hw & _). injection H as <-. congruence. }
  destruct (get_employee_valid s employee_id employee Hv He) as [Hs Hen].
  destruct (availability_working_day s employee_id d employee He Hday Hs Hen Hd)
    as (cs & Hrun' & Hin & _).
  rewrite Hrun in Hrun'. injection Hrun' as ->.
  set (st := Employee.start_time employee) in *.
  set (en := Employee.end_time employee) in *.
  assert (Hslot : forall k, 0 <= k -> st + 30 * k + 30 <= en ->
            slot_at (combine d st + slot_duration * k)
            = mkSlot (st + 30 * k) (st + 30 * k + 30) true).
  { intros k Hk Hle. unfold slot_at.
    rewrite !(time_of_in_day d);
      unfold combine, valid_time, minutes_per_day, slot_duration in *;
      [f_equal; lia | lia | lia]. }
  assert (Hfree : forall k,
            is_available d (combine d st + slot_duration * k)
              (combine d st + slot_duration * k + slot_duration)
              (appointments_on s employee_id d) = true
            <-> forall a, In a (appointments_on s employee_id d) ->
                  st + 30 * k + 30 <= Appointment.start_time a
                  \/ Appointment.end_time a <= st + 30 * k).
  { intros k. rewrite is_available_spec.
    split; intros H a Ha; specialize (H a Ha);
      unfold combine, slot_duration in *; lia. }
  rewrite in_map_iff. split.
  - intros (c & <- & Hc). apply Hin in Hc as ((k & Hk & ->) & Hc & Ha).
    assert (Hle : st + 30 * k + 30 <= en)
      by (unfold combine, slot_duration in Hc; lia).
    exists employee, k. split; [reflexivity|]. split; [exact Hday|].
    split; [exact Hk|]. split; [now apply Hslot|].
    split; [exact Hle|]. now apply Hfree.
  - intros (e & k & H & _ & Hk & -> & Hle & Ha). injection H as <-.
    exists (combine d st + slot_duration * k). split; [now apply Hslot|].
    apply Hin. split; [now exists k|]. split.
    + unfold combine, slot_duration. lia.
    + now apply Hfree.
Qed.

(** X10. A booking changes no availability but that of the employee and the
    date it is for. *)
Theorem booking_leaves_other_calendars (today : date) (s : Session)
  (employee_id : Z) (customer_phone customer_name : string) (d : date)
  (start_time : string) (service_id : option Z) (notes : string)
  (employee_id' : Z) (d' : date) :
  employee_id' <> employee_id \/ d' <> d ->
  get_employee_availability
    (snd (book_appointment today s employee_id customer_phone customer_name
            d start_time service_id notes)) employee_id' d'
  = get_employee_availability s employee_id' d'.
Proof.
  intros Hother.
  pose proof (book_appointment_session today s employee_id customer_phone
                customer_name d start_time service_id notes) as H.
  cbv zeta in H. destruct H as (He & _ & _ & Hr).
  rewrite register_customer_employees in He.
  destruct (book_appointment today s employee_id customer_phone customer_name
              d start_time service_id notes) as [r s'] eqn:Hb.
  cbn [fst snd] in *.
  apply availability_ext; [unfold get_employee; now rewrite He|].
  destruct r as [a|e].
  - destruct Hr as [Hr _]. rewrite register_customer_appointments in Hr.
    apply book_appointment_returned in Hb
      as (employee & start & _ & _ & _ & _ & Ha & _).
    unfold appointments_on. rewrite Hr, filter_app. cbn [filter].
    replace ((Appointment.employee_id a =? employee_id')
             && (Appointment.appointment_date a =? d')) with false.
    + cbn. apply app_nil_r.
    + subst a. cbn. symmetry. apply andb_false_iff.
      destruct Hother as [Hne|Hne]; [left|right]; apply Z.eqb_neq; congruence.
  - subst s'. unfold appointments_on.
    now rewrite register_customer_appointments.
Qed.

Lemma booking_leaves_other_calendars_witness :
  get_employee_availability shop0_booked 1 (monday + 1)
  = get_employee_availability shop0 1 (monday + 1).
Proof.
  apply (booking_leaves_other_calendars monday shop0 1 "555-2001"
           "Alex Thompson" monday "10:00" None "" 1 (monday + 1)).
  right. unfold monday. lia.
Defined.

Lemma book_appointment_employees (today : date) (s : Session) (employee_id : Z)
  (customer_phone customer_name : string) (d : date) (start_time : string)
  (service_id : option Z) (notes : string) :
  employees (snd (book_appointment today s employee_id customer_phone
                    customer_name d start_time service_id notes))
  = employees s.
Proof.
  pose proof (book_appointment_session today s employee_id customer_phone
                customer_name d start_time service_id notes) as H.
  cbv zeta in H. destruct H as (He & _).
  now rewrite register_customer_employees in He.
Qed.

(** A slot that is offered, as a request: the employee exists, the start
    time formats and parses back, and the conflict query finds nothing. *)
Lemma offered_slot_request (s : Session) (employee_id : Z) (d : date)
  (slots : list Slot) (sl : Slot) :
  valid_session s ->
  1 <= d < max_ordinal ->
  get_employee_availability s employee_id d = Returned slots ->
  In sl slots ->
  exists (employee : Employee.t) (k : Z),
    get_employee s employee_id = Some employee
    /\ 0 <= k
    /\ sl = mkSlot (Employee.start_time employee + 30 * k)
                   (Employee.start_time employee + 30 * k + 30) true
    /\ valid_time (slot_start_time sl)
    /\ slot_end_time sl = slot_start_time sl + 30
    /\ slot_end_time sl < minutes_per_day
    /\ find (conflicts employee_id d (slot_start_time sl) (slot_end_time sl))
            (appointments s) = None.
Proof.
  intros Hv Hd Hrun Hin.
  apply (availability_membership s employee_id d slots Hv Hd Hrun) in Hin
    as (employee & k & He & _ & Hk & -> & Hle & Hfree).
  destruct (get_employee_valid s employee_id employee Hv He) as [Hs Hen].
  exists employee, k. cbn [slot_start_time slot_end_time].
  unfold valid_time, minutes_per_day in *.
  split; [exact He|]. split; [exact Hk|]. split; [reflexivity|].
  split; [lia|]. split; [reflexivity|]. split; [lia|].
  apply find_none_of_forall. intros a Ha. unfold conflicts.
  destruct ((Appointment.employee_id a =? employee_id)
            && (Appointment.appointment_date a =? d)
            && negb (String.eqb (Appointment.status a) "cancelled")) eqn:E;
    [|reflexivity].
  cbn [andb]. apply orb_false_iff.
  assert (Hon : In a (appointments_on s employee_id d))
    by (unfold appointments_on; apply filter_In; now split).
  specialize (Hfree a Hon).
  split; apply andb_false_iff; destruct Hfree as [Hf|Hf];
    [left; apply Z.leb_gt | right; apply Z.ltb_ge
    |left; apply Z.ltb_ge | right; apply Z.leb_gt]; lia.
Qed.

Lemma offered_slot_booking (today : date) (s : Session) (employee_id : Z)
  (d : date) (slots : list Slot) (sl : Slot)
  (customer_phone customer_name notes : string) :
  valid_session s ->
  valid_date today ->
  1 <= d < max_ordinal ->
  get_employee_availability s employee_id d = Returned slots ->
  In sl slots ->
  exists (a : Appointment.t) (s' : Session),
    book_appointment today s employee_id customer_phone customer_name d
      (strftime_HM (slot_start_time sl)) None notes = (Returned a, s')
    /\ Appointment.start_time a = slot_start_time sl
    /\ Appointment.end_time a = slot_end_time sl
    /\ appointments s' = appointments s ++ [a].
Proof.
  intros Hv Htoday Hd Hrun Hin.
  destruct (offered_slot_request s employee_id d slots sl Hv Hd Hrun Hin)
    as (employee & k & He & _ & _ & Hstart & Hend & Hlt & Hfree).
  rewrite book_appointment_eq. cbv zeta.
  rewrite He, (strftime_HM_parses _ Hstart).
  change (booking_duration s None) with 30.
  assert (Hr : in_datetime_range (combine today (slot_start_time sl) + 30) = true).
  { unfold in_datetime_range, valid_date in *. apply andb_true_iff.
    split; [apply Z.leb_le | apply Z.ltb_lt]; calendar. }
  assert (Hmod : (slot_start_time sl + 30) mod minutes_per_day = slot_end_time sl).
  { rewrite Hend. apply Z.mod_small. unfold valid_time in Hstart. lia. }
  rewrite Hr, Hmod, Hfree.
  eexists. eexists. split; [reflexivity|]. cbn. auto.
Qed.

(** X11. Every slot the availability query offers can be booked as it
    stands: a booking for that employee and date, at the start time of the
    slot as [strftime("%H:%M")] prints it and without a service, is accepted
    and stored with the start and end time of the slot. *)
Theorem offered_slot_bookable (today : date) (s : Session) (employee_id : Z)
  (d : date) (slots : list Slot) (sl : Slot)
  (customer_phone customer_name notes : string) :
  valid_session s ->
  valid_date today ->
  1 <= d < max_ordinal ->
  get_employee_availability s employee_id d = Returned slots ->
  In sl slots ->
  exists (a : Appointment.t) (s' : Session),
    book_appointment today s employee_id customer_phone customer_name d
      (strftime_HM (slot_start_time sl)) None notes = (Returned a, s')
    /\ Appointment.start_time a = slot_start_time sl
    /\ Appointment.end_time a = slot_end_time sl
    /\ appointments s' = appointments s ++ [a].
Proof.
  exact (offered_slot_booking today s employee_id d slots sl customer_phone
           customer_name notes).
Qed.

Lemma offered_slot_bookable_witness :
  exists (a : Appointment.t) (s' : Session),
    book_appointment monday shop2 3 "555-2005" "Carl Young" monday
      (strftime_HM (hm 9 30)) None "" = (Returned a, s')
    /\ Appointment.start_time a = hm 9 30
    /\ Appointment.end_time a = hm 10 0.
Proof.
  destruct (offered_slot_bookable monday shop2 3 monday
              [mkSlot (hm 9 30) (hm 10 0) true] (mkSlot (hm 9 30) (hm 10 0) true)
              "555-2005" "Carl Young" "")
    as (a & s' & Hb & Hs & He & _).
  - unfold valid_session, valid_time, minutes_per_day.
    repeat constructor; cbn; lia.
  - unfold valid_date, monday, max_ordinal. lia.
  - unfold monday, max_ordinal. lia.
  - reflexivity.
  - now left.
  - exists a, s'. auto.
Defined.

Lemma book_appointment_valid_session (today : date) (s : Session)
  (employee_id : Z) (customer_phone customer_name : string) (d : date)
  (start_time : string) (service_id : option Z) (notes : string) :
  valid_session s ->
  valid_session (snd (book_appointment today s employee_id customer_phone
                        customer_name d start_time service_id notes)).
Proof.
  unfold valid_session. now rewrite book_appointment_employees.
Qed.

(** X12. Booking an offered slot takes that slot and no other: after the
    booking of X11 the availability of the employee on that date is the one
    before without the slot booked. *)
Theorem booking_takes_the_slot (today : date) (s : Session) (employee_id : Z)
  (d : date) (slots : list Slot) (sl : Slot)
  (customer_phone customer_name notes : string) :
  valid_session s ->
  valid_date today ->
  1 <= d < max_ordinal ->
  get_employee_availability s employee_id d = Returned slots ->
  In sl slots ->
  exists slots' : list Slot,
    get_employee_availability
      (snd (book_appointment today s employee_id customer_phone customer_name d
              (strftime_HM (slot_start_time sl)) None notes)) employee_id d
    = Returned slots'
    /\ forall sl' : Slot, In sl' slots' <-> In sl' slots /\ sl' <> sl.
Proof.
  intros Hv Htoday Hd Hrun Hin.
  destruct (offered_slot_booking today s employee_id d slots sl customer_phone
              customer_name notes Hv Htoday Hd Hrun Hin)
    as (a & s' & Hb & Hstart & Hend & Happ).
  pose proof (book_appointment_valid_session today s employee_id customer_phone
                customer_name d (strftime_HM (slot_start_time sl)) None notes Hv)
    as Hv'.
  pose proof (book_appointment_employees today s employee_id customer_phone
                customer_name d (strftime_HM (slot_start_time sl)) None notes)
    as Hemp.
  pose proof (book_appointment_returned _ _ _ _ _ _ _ _ _ _ _ Hb)
    as (employee0 & start0 & _ & _ & _ & _ & Ha & _).
  rewrite Hb in *. cbn [snd] in *.
  destruct (availability_total s' employee_id d Hv' Hd) as (slots' & Hrun' & _).
  exists slots'. split; [exact Hrun'|]. intros sl'.
  rewrite (availability_membership s' employee_id d slots' Hv' Hd Hrun' sl').
  rewrite (availability_membership s employee_id d slots Hv Hd Hrun sl').
  apply (availability_membership s employee_id d slots Hv Hd Hrun) in Hin
    as (employee & k & He & _ & Hk & Hsl & Hle & _).
  assert (Hge : get_employee s' employee_id = get_employee s employee_id)
    by (unfold get_employee; now rewrite Hemp).
  assert (Hon : forall b, In b (appointments_on s' employee_id d)
                          <-> In b (appointments_on s employee_id d) \/ b = a).
  { intros b. unfold appointments_on. rewrite Happ, filter_app, in_app_iff.
    cbn [filter]. subst a. cbn. rewrite !Z.eqb_refl. cbn. intuition. }
  assert (Hat : Appointment.start_time a = Employee.start_time employee + 30 * k
                /\ Appointment.end_time a
                   = Employee.start_time employee + 30 * k + 30).
  { rewrite Hstart, Hend, Hsl. now cbn. }
  destruct Hat as [Hat1 Hat2]. rewrite Hge. split.
  - intros (e & k' & He' & Hday & Hk' & -> & Hle' & Hfree).
    rewrite He in He'. injection He' as <-. split.
    + exists employee, k'. repeat (split; [assumption|]).
      split; [reflexivity|]. split; [exact Hle'|].
      intros b Hb'. apply Hfree, Hon. now left.
    + intros Heq. rewrite Hsl in Heq.
      pose proof (f_equal slot_start_time Heq) as Hk0.
      cbn [slot_start_time] in Hk0.
      specialize (Hfree a (proj2 (Hon a) (or_intror eq_refl))). lia.
  - intros ((e & k' & He' & Hday & Hk' & -> & Hle' & Hfree) & Hne).
    rewrite He in He'. injection He' as <-.
    exists employee, k'. repeat (split; [assumption|]).
    split; [reflexivity|]. split; [exact Hle'|].
    intros b Hb'. apply Hon in Hb' as [Hb' | ->]; [now apply Hfree|].
    assert (k' <> k) by (intros ->; apply Hne; now rewrite Hsl).
    lia.
Qed.

Lemma booking_takes_the_slot_witness :
  get_employee_availability mike_morning 1 monday
  = Returned [mkSlot (hm 9 0) (hm 9 30) true; mkSlot (hm 9 30) (hm 10 0) true]
  /\ exists slots' : list Slot,
       get_employee_availability
         (snd (book_appointment monday mike_morning 1 "555-2001" "Alex Thompson"
                 monday (strftime_HM (hm 9 0)) None "")) 1 monday
       = Returned slots'
       /\ forall sl', In sl' slots' <-> sl' = mkSlot (hm 9 30) (hm 10 0) true.
Proof.
  split; [reflexivity|].
  destruct (booking_takes_the_slot monday mike_morning 1 monday
              [mkSlot (hm 9 0) (hm 9 30) true; mkSlot (hm 9 30) (hm 10 0) true]
              (mkSlot (hm 9 0) (hm 9 30) true) "555-2001" "Alex Thompson" "")
    as (slots' & Hrun & Hin).
  - unfold valid_session, valid_time, minutes_per_day.
    repeat constructor; cbn; lia.
  - unfold valid_date, monday, max_ordinal. lia.
  - unfold monday, max_ordinal. lia.
  - reflexivity.
  - now left.
  - exists slots'. split; [exact Hrun|]. intros sl'. rewrite Hin. split.
    + intros [[<-|[<-|[]]] Hne]; [now destruct Hne | reflexivity].
    + intros ->. split; [right; now left | discriminate].
Defined.

(** ** The next available slot, booked *)

Lemma first_free_employee_offered (s : Session) (d : date)
  (emps : list Employee.t) (ns : NextSlot) :
  first_free_employee s d emps = Returned (Some ns) ->
  exists (sl : Slot) (rest : list Slot),
    get_employee_availability s (ns_employee_id ns) d = Returned (sl :: rest)
    /\ ns_date ns = d
    /\ ns_time ns = slot_start_time sl.
Proof.
  induction emps as [|emp emps IH]; cbn [first_free_employee]; [discriminate|].
  destruct (get_employee_availability s (Employee.id emp) d)
    as [[|sl rest]|e] eqn:Hrun; cbn [bind]; [exact IH | | discriminate].
  intros [= <-]. now exists sl, rest.
Qed.

Lemma next_slot_loop_offered (s : Session) (today : date)
  (employee_id shop_id : option Z) (days : list Z) (ns : NextSlot) :
  next_slot_loop s today employee_id shop_id days = Returned (Some ns) ->
  exists (j : Z) (sl : Slot) (rest : list Slot),
    In j days
    /\ ns_date ns = today + j
    /\ get_employee_availability s (ns_employee_id ns) (ns_date ns)
       = Returned (sl :: rest)
    /\ ns_time ns = slot_start_time sl.
Proof.
  induction days as [|j days IH]; cbn [next_slot_loop]; [discriminate|].
  assert (Hrest : next_slot_loop s today employee_id shop_id days
                  = Returned (Some ns) ->
                  exists (j0 : Z) (sl : Slot) (rest : list Slot),
                    In j0 (j :: days)
                    /\ ns_date ns = today + j0
                    /\ get_employee_availability s (ns_employee_id ns) (ns_date ns)
                       = Returned (sl :: rest)
                    /\ ns_time ns = slot_start_time sl).
  { intros H. destruct (IH H) as (j0 & sl & rest & Hin & Hrest).
    exists j0, sl, rest. split; [now right | exact Hrest]. }
  unfold date_add. cbv zeta.
  destruct ((1 <=? today + j) && (today + j <=? max_ordinal)); cbn [bind];
    [|discriminate].
  destruct (truthy employee_id) as [eid|].
  - destruct (get_employee_availability s eid (today + j))
      as [[|sl rest]|e] eqn:Hrun; cbn [bind]; [exact Hrest | | discriminate].
    intros [= <-]. exists j, sl, rest. cbn [ns_date ns_time ns_employee_id].
    split; [now left|]. auto.
  - destruct (truthy shop_id) as [sid|]; [|exact Hrest].
    destruct (first_free_employee s (today + j) (active_employees s sid))
      as [[r|]|e] eqn:Hfound; cbn [bind]; [ | exact Hrest | discriminate].
    intros [= ->]. apply first_free_employee_offered in Hfound
      as (sl & rest & Hrun & Hd & Ht).
    exists j, sl, rest. rewrite Hd. split; [now left|]. auto.
Qed.

Lemma get_next_available_slot_eq (today : date) (s : Session)
  (employee_id shop_id : option Z) :
  get_next_available_slot today s employee_id shop_id
  = next_slot_loop s today employee_id shop_id (range max_days_ahead).
Proof. reflexivity. Qed.

(** X13. The slot that [get_next_available_slot] returns, for one employee
    or for a shop, can be booked as it stands: a booking for the employee and
    the date of the result, at its time as [strftime("%H:%M")] prints it and
    without a service, is accepted, and the appointment stored is the one
    announced, 30 minutes long. *)
Theorem next_available_slot_bookable (today : date) (s : Session)
  (employee_id shop_id : option Z) (ns : NextSlot)
  (customer_phone customer_name notes : string) :
  valid_session s ->
  1 <= today ->
  today + 30 <= max_ordinal ->
  get_next_available_slot today s employee_id shop_id = Returned (Some ns) ->
  exists (a : Appointment.t) (s' : Session),
    book_appointment today s (ns_employee_id ns) customer_phone customer_name
      (ns_date ns) (strftime_HM (ns_time ns)) None notes = (Returned a, s')
    /\ Appointment.employee_id a = ns_employee_id ns
    /\ Appointment.appointment_date a = ns_date ns
    /\ Appointment.start_time a = ns_time ns
    /\ Appointment.end_time a = ns_time ns + 30
    /\ Appointment.status a = "scheduled".
Proof.
  intros Hv Htoday Hhorizon Hrun. rewrite get_next_available_slot_eq in Hrun.
  destruct (next_slot_loop_offered s today employee_id shop_id _ ns Hrun)
    as (j & sl & rest & Hj & Hd & Hrun' & Ht).
  clear Hrun. rename Hrun' into Hrun.
  unfold range, max_days_ahead in Hj. apply in_map_iff in Hj as (n & <- & Hn).
  apply in_seq in Hn.
  assert (Hdate : 1 <= ns_date ns < max_ordinal) by lia.
  assert (Hin : In sl (sl :: rest)) by now left.
  destruct (offered_slot_request s (ns_employee_id ns) (ns_date ns) (sl :: rest)
              sl Hv Hdate Hrun Hin)
    as (_ & _ & _ & _ & _ & _ & Hend & _).
  destruct (offered_slot_booking today s (ns_employee_id ns) (ns_date ns)
              (sl :: rest) sl customer_phone customer_name notes Hv
              ltac:(unfold valid_date; lia) Hdate Hrun Hin)
    as (a & s' & Hb & Hstart & Hend' & _).
  exists a, s'. rewrite Ht. split; [exact Hb|].
  apply book_appointment_returned in Hb
    as (employee & start & _ & _ & _ & _ & Ha & _).
  split; [now rewrite Ha|]. split; [now rewrite Ha|].
  split; [exact Hstart|]. split; [now rewrite Hend', Hend|].
  now rewrite Ha.
Qed.

Lemma next_available_slot_bookable_witness :
  get_next_available_slot monday shop1 (Some 2) None
  = Returned (Some (mkNextSlot 2 None (monday + 1) (hm 10 0)))
  /\ exists (a : Appointment.t) (s' : Session),
       book_appointment monday shop1 2 "555-2002" "David Chen" (monday + 1)
         (strftime_HM (hm 10 0)) None "" = (Returned a, s')
       /\ Appointment.start_time a = hm 10 0
       /\ Appointment.end_time a = hm 10 0 + 30.
Proof.
  split; [vm_compute; reflexivity|].
  destruct (next_available_slot_bookable monday shop1 (Some 2) None
              (mkNextSlot 2 None (monday + 1) (hm 10 0))
              "555-2002" "David Chen" "")
    as (a & s' & Hb & _ & _ & Hs & He & _).
  - exact shop1_valid.
  - unfold monday. lia.
  - unfold monday, max_ordinal. lia.
  - vm_compute. reflexivity.
  - exists a, s'. auto.
Defined.

(** ** Cancelling and the availability *)

Lemma cancel_row_last (appointment_id : Z) (rows : list Appointment.t)
  (a : Appointment.t) :
  (forall b, In b rows -> Appointment.id b <> appointment_id) ->
  Appointment.id a = appointment_id ->
  cancel_row appointment_id (rows ++ [a]) = rows ++ [set_cancelled a].
Proof.
  intros Hrows Ha. induction rows as [|b rows IH]; cbn.
  - apply Z.eqb_eq in Ha. now rewrite Ha.
  - destruct (Appointment.id b =? appointment_id) eqn:E.
    + apply Z.eqb_eq in E. now destruct (Hrows b (or_introl eq_refl)).
    + f_equal. apply IH. intros c Hc. apply Hrows. now right.
Qed.

Lemma cancel_appointment_employees (s : Session) (appointment_id : Z) :
  employees (snd (cancel_appointment s appointment_id)) = employees s.
Proof.
  unfold cancel_appointment. now destruct (find _ _).
Qed.

(** The rows a cancellation leaves active are rows that were active. *)
Lemma cancel_row_active (appointment_id : Z) (rows : list Appointment.t)
  (p : Appointment.t -> bool) (a : Appointment.t) :
  In a (filter (fun a => p a && negb (String.eqb (Appointment.status a) "cancelled"))
          (cancel_row appointment_id rows)) ->
  In a (filter (fun a => p a && negb (String.eqb (Appointment.status a) "cancelled"))
          rows).
Proof.
  induction rows as [|b rows IH]; cbn [cancel_row]; [trivial|].
  destruct (Appointment.id b =? appointment_id).
  - cbn [filter]. replace (p (set_cancelled b)
                           && negb (String.eqb (Appointment.status (set_cancelled b))
                                      "cancelled")) with false
      by (cbn; now rewrite andb_false_r).
    intros H. destruct (p b && _); [now right | exact H].
  - cbn [filter]. destruct (p b && _).
    + intros [<-|H]; [now left | right; now apply IH].
    + exact IH.
Qed.

(** X14. Booking and then cancelling the appointment booked gives back the
    calendar: the cancellation succeeds, and the availability of every
    employee on every date is what it was before the booking. *)
Theorem book_then_cancel_restores_availability (today : date) (s : Session)
  (employee_id : Z) (customer_phone customer_name : string) (d : date)
  (start_time : string) (service_id : option Z) (notes : string)
  (a : Appointment.t) (s' : Session) :
  book_appointment today s employee_id customer_phone customer_name
    d start_time service_id notes = (Returned a, s') ->
  fst (cancel_appointment s' (Appointment.id a)) = true
  /\ forall (employee_id' : Z) (d' : date),
       get_employee_availability
         (snd (cancel_appointment s' (Appointment.id a))) employee_id' d'
       = get_employee_availability s employee_id' d'.
Proof.
  intros Hb.
  pose proof (book_appointment_employees today s employee_id customer_phone
                customer_name d start_time service_id notes) as Hemp.
  rewrite Hb in Hemp. cbn [snd] in Hemp.
  apply book_appointment_returned in Hb
    as (employee & start & _ & _ & _ & _ & Ha & Happ).
  assert (Hid : Appointment.id a = next_id (map Appointment.id (appointments s)))
    by now rewrite Ha.
  assert (Hfind : find (fun b => Appointment.id b =? Appointment.id a)
                       (appointments s') = Some a).
  { rewrite Happ, Hid. now apply find_id_fresh. }
  unfold cancel_appointment. rewrite Hfind. cbn [fst snd].
  split; [reflexivity|]. intros employee_id' d'.
  apply availability_ext.
  - unfold get_employee. cbn [employees]. now rewrite Hemp.
  - unfold appointments_on. cbn [appointments]. rewrite Happ.
    rewrite cancel_row_last; [|intros b Hin Heq|reflexivity].
    + rewrite filter_app. cbn [filter].
      replace (Appointment.status (set_cancelled a)) with "cancelled"
        by reflexivity.
      cbn [String.eqb Ascii.eqb Bool.eqb negb]. rewrite andb_false_r.
      apply app_nil_r.
    + apply (next_id_fresh (map Appointment.id (appointments s))).
      rewrite <- Hid, <- Heq. now apply in_map.
Qed.

Lemma book_then_cancel_restores_availability_witness :
  exists (a : Appointment.t) (s' : Session),
    book_appointment monday shop0 1 "555-2001" "Alex Thompson" monday
      "10:00" None "" = (Returned a, s')
    /\ get_employee_availability s' 1 monday
       <> get_employee_availability shop0 1 monday
    /\ fst (cancel_appointment s' (Appointment.id a)) = true
    /\ get_employee_availability
         (snd (cancel_appointment s' (Appointment.id a))) 1 monday
       = get_employee_availability shop0 1 monday.
Proof.
  eexists. eexists. split; [reflexivity|].
  split; [vm_compute; discriminate|].
  destruct (book_then_cancel_restores_availability monday shop0 1 "555-2001"
              "Alex Thompson" monday "10:00" None "" _ _ eq_refl)
    as [Hok Hsame].
  split; [exact Hok | exact (Hsame 1 monday)].
Defined.

(** X15. A cancellation takes no free slot away: whatever the key, every
    slot an employee had on a date is still offered afterwards. *)
Theorem cancel_appointment_keeps_slots (s : Session) (appointment_id : Z)
  (employee_id : Z) (d : date) (slots : list Slot) :
  valid_session s ->
  1 <= d < max_ordinal ->
  get_employee_availability s employee_id d = Returned slots ->
  exists slots' : list Slot,
    get_employee_availability (snd (cancel_appointment s appointment_id))
      employee_id d = Returned slots'
    /\ forall sl : Slot, In sl slots -> In sl slots'.
Proof.
  intros Hv Hd Hrun.
  pose proof (cancel_appointment_employees s appointment_id) as Hemp.
  set (s' := snd (cancel_appointment s appointment_id)) in *.
  assert (Hv' : valid_session s') by (unfold valid_session; now rewrite Hemp).
  destruct (availability_total s' employee_id d Hv' Hd) as (slots' & Hrun' & _).
  exists slots'. split; [exact Hrun'|]. intros sl.
  rewrite (availability_membership s' employee_id d slots' Hv' Hd Hrun' sl).
  rewrite (availability_membership s employee_id d slots Hv Hd Hrun sl).
  assert (Hge : get_employee s' employee_id = get_employee s employee_id)
    by (unfold get_employee; now rewrite Hemp).
  rewrite Hge.
  intros (e & k & He & Hday & Hk & Hsl & Hle & Hfree).
  exists e, k. repeat (split; [assumption|]).
  intros a Ha. apply Hfree. revert Ha. unfold appointments_on, s'.
  unfold cancel_appointment. destruct (find _ _); cbn [snd appointments];
    [|trivial].
  apply (cancel_row_active appointment_id (appointments s)
           (fun a => (Appointment.employee_id a =? employee_id)
                     && (Appointment.appointment_date a =? d))).
Qed.

Lemma cancel_appointment_keeps_slots_witness :
  exists slots' : list Slot,
    get_employee_availability (snd (cancel_appointment shop2 1)) 3 monday
    = Returned slots'
    /\ In (mkSlot (hm 9 30) (hm 10 0) true) slots'.
Proof.
  destruct (cancel_appointment_keeps_slots shop2 1 3 monday
              [mkSlot (hm 9 30) (hm 10 0) true])
    as (slots' & Hrun & Hin).
  - unfold valid_session, valid_time, minutes_per_day.
    repeat constructor; cbn; lia.
  - unfold monday, max_ordinal. lia.
  - reflexivity.
  - exists slots'. split; [exact Hrun|]. apply Hin. now left.
Defined.

(** ** What the conflict query finds and what it misses *)

Lemma conflicts_active (employee_id : Z) (d : date) (start end_time : time)
  (s : Session) (b : Appointment.t) :
  In b (appointments s) ->
  conflicts employee_id d start end_time b = true ->
  In b (appointments_on s employee_id d)
  /\ ((Appointment.start_time b <= start < Appointment.end_time b)
      \/ (Appointment.start_time b < end_time <= Appointment.end_time b)).
Proof.
  intros Hin Hc. unfold conflicts in Hc.
  apply andb_true_iff in Hc as [Hrow Hc]. split.
  - unfold appointments_on. apply filter_In. now split.
  - apply orb_true_iff in Hc as [Hc|Hc]; apply andb_true_iff in Hc as [H1 H2];
      [left|right]; lia.
Qed.

Lemma conflicts_missed (employee_id : Z) (d : date) (start end_time : time)
  (s : Session) (b : Appointment.t) :
  In b (appointments_on s employee_id d) ->
  conflicts employee_id d start end_time b = false ->
  ~ (Appointment.start_time b <= start < Appointment.end_time b)
  /\ ~ (Appointment.start_time b < end_time <= Appointment.end_time b).
Proof.
  intros Hin Hc. unfold appointments_on in Hin.
  apply filter_In in Hin as [_ Hrow]. unfold conflicts in Hc.
  rewrite Hrow in Hc. cbn [andb] in Hc.
  apply orb_false_iff in Hc as [H1 H2].
  apply andb_false_iff in H1. apply andb_false_iff in H2.
  split; intros [Ha Hb]; [destruct H1 as [H|H] | destruct H2 as [H|H]];
    first [apply Z.leb_gt in H | apply Z.ltb_ge in H]; lia.
Qed.

(** X16. A rejection for a taken slot is never spurious: when a booking of
    positive duration that ends before midnight is refused with
    [Time slot not available], a non-cancelled appointment of that employee
    on that date overlaps the interval asked for. *)
Theorem rejection_is_overlap (today : date) (s : Session) (employee_id : Z)
  (customer_phone customer_name : string) (d : date) (start_time : string)
  (service_id : option Z) (notes : string) (start : time) :
  strptime_HM start_time = Returned start ->
  0 < booking_duration s service_id ->
  start + booking_duration s service_id < minutes_per_day ->
  fst (book_appointment today s employee_id customer_phone customer_name
         d start_time service_id notes) = Raised SlotUnavailable ->
  exists b : Appointment.t,
    In b (appointments_on s employee_id d)
    /\ overlaps start (start + booking_duration s service_id)
         (Appointment.start_time b) (Appointment.end_time b) = true.
Proof.
  intros Hs Hpos Hday. rewrite book_appointment_eq. cbv zeta. rewrite Hs.
  pose proof (strptime_HM_valid _ _ Hs) as Hv. unfold valid_time in Hv.
  rewrite (Z.mod_small (start + booking_duration s service_id)) by lia.
  destruct (get_employee s employee_id); [|discriminate].
  destruct (in_datetime_range _); [|discriminate].
  destruct (find _ _) as [b|] eqn:Hf; [intros _ | discriminate].
  apply find_some in Hf as [Hin Hc].
  destruct (conflicts_active _ _ _ _ s b Hin Hc) as [Hon Hcase].
  exists b. split; [exact Hon|].
  unfold overlaps. apply negb_true_iff, orb_false_iff.
  split; apply Z.leb_gt; lia.
Qed.

Lemma rejection_is_overlap_witness :
  fst (book_appointment monday shop0_booked 1 "555-2002" "David Chen" monday
         "09:45" None "") = Raised SlotUnavailable
  /\ exists b : Appointment.t,
       In b (appointments_on shop0_booked 1 monday)
       /\ overlaps (hm 9 45) (hm 9 45 + 30)
            (Appointment.start_time b) (Appointment.end_time b) = true.
Proof.
  split; [reflexivity|].
  apply (rejection_is_overlap monday shop0_booked 1 "555-2002" "David Chen"
           monday "09:45" None "" (hm 9 45)).
  - reflexivity.
  - reflexivity.
  - reflexivity.
  - reflexivity.
Defined.

(** X17. What an accepted booking can overlap: a non-cancelled appointment
    of the same employee on the same date that overlaps the appointment just
    stored lies strictly inside it, starting later and ending earlier.  An
    existing appointment at least as long as the new one is never
    overlapped. *)
Theorem accepted_overlap_is_containment (today : date) (s : Session)
  (employee_id : Z) (customer_phone customer_name : string) (d : date)
  (start_time : string) (service_id : option Z) (notes : string)
  (a : Appointment.t) (s' : Session) (b : Appointment.t) :
  book_appointment today s employee_id customer_phone customer_name
    d start_time service_id notes = (Returned a, s') ->
  In b (appointments_on s employee_id d) ->
  overlaps (Appointment.start_time a) (Appointment.end_time a)
    (Appointment.start_time b) (Appointment.end_time b) = true ->
  Appointment.start_time a < Appointment.start_time b
  /\ Appointment.end_time b < Appointment.end_time a
  /\ Appointment.end_time a - Appointment.start_time a
     > Appointment.end_time b - Appointment.start_time b.
Proof.
  intros Hb Hon Hov.
  apply book_appointment_returned in Hb
    as (employee & start & _ & _ & _ & Hfree & Ha & _).
  assert (Hin : In b (appointments s))
    by (unfold appointments_on in Hon; now apply filter_In in Hon).
  pose proof (find_none _ _ Hfree b Hin) as Hc.
  destruct (conflicts_missed _ _ _ _ s b Hon Hc) as [H1 H2].
  rewrite Ha in *.
  cbn [Appointment.start_time Appointment.end_time] in *.
  unfold overlaps in Hov. apply negb_true_iff, orb_false_iff in Hov.
  destruct Hov as [Hov1 Hov2].
  apply Z.leb_gt in Hov1. apply Z.leb_gt in Hov2. lia.
Qed.

Lemma accepted_overlap_is_containment_witness :
  exists (a b : Appointment.t) (s' : Session),
    book_appointment monday shop0_booked 1 "555-2002" "David Chen" monday
      "09:45" (Some 1) "" = (Returned a, s')
    /\ appointments_on shop0_booked 1 monday = [b]
    /\ Appointment.start_time a < Appointment.start_time b
    /\ Appointment.end_time b < Appointment.end_time a.
Proof.
  eexists. eexists. eexists. split; [reflexivity|]. split; [reflexivity|].
  destruct (accepted_overlap_is_containment monday shop0_booked 1 "555-2002"
              "David Chen" monday "09:45" (Some 1) "" _ _
              (Appointment.mk 1 1 1 1 None monday (hm 10 0) (hm 10 30)
                 "scheduled" "") eq_refl)
    as (H1 & H2 & _).
  - now left.
  - reflexivity.
  - split; assumption.
Defined.

(** ** The listings *)

Lemma appt_leb_spec (a b : Appointment.t) :
  appt_leb a b = true <-> listed_before a b.
Proof.
  unfold appt_leb, listed_before.
  rewrite orb_true_iff, andb_true_iff, Z.ltb_lt, Z.eqb_eq, Z.leb_le.
  reflexivity.
Qed.

Lemma listed_before_total (a b : Appointment.t) :
  appt_leb a b = false -> listed_before b a.
Proof.
  intros H. destruct (appt_leb a b) eqn:E; [discriminate|]. clear H.
  unfold appt_leb in E. apply orb_false_iff in E as [E1 E2].
  apply Z.ltb_ge in E1. apply andb_false_iff in E2.
  unfold listed_before.
  destruct E2 as [E2|E2]; [apply Z.eqb_neq in E2 | apply Z.leb_gt in E2]; lia.
Qed.

Lemma listed_before_trans (a b c : Appointment.t) :
  listed_before a b -> listed_before b c -> listed_before a c.
Proof. unfold listed_before. lia. Qed.

Lemma insert_appt_perm (a : Appointment.t) (l : list Appointment.t) :
  Permutation (insert_appt a l) (a :: l).
Proof.
  induction l as [|b l IH]; cbn; [reflexivity|].
  destruct (appt_leb a b); [reflexivity|].
  rewrite IH. apply perm_swap.
Qed.

Lemma order_by_date_time_perm (l : list Appointment.t) :
  Permutation (order_by_date_time l) l.
Proof.
  unfold order_by_date_time. induction l as [|a l IH]; cbn; [reflexivity|].
  rewrite insert_appt_perm. now constructor.
Qed.

Lemma insert_appt_sorted (a : Appointment.t) (l : list Appointment.t) :
  StronglySorted listed_before l -> StronglySorted listed_before (insert_appt a l).
Proof.
  induction 1 as [|b l Hl IH Hb]; cbn.
  - constructor; constructor.
  - destruct (appt_leb a b) eqn:E.
    + apply appt_leb_spec in E. constructor; [now constructor|].
      constructor; [exact E|]. rewrite Forall_forall in *.
      intros c Hc. apply (listed_before_trans a b c E). now apply Hb.
    + apply listed_before_total in E. constructor; [exact IH|].
      rewrite Forall_forall in *. intros c Hc.
      apply (Permutation_in _ (insert_appt_perm a l)) in Hc as [<-|Hc];
        [exact E | now apply Hb].
Qed.

Lemma order_by_date_time_sorted (l : list Appointment.t) :
  StronglySorted listed_before (order_by_date_time l).
Proof.
  unfold order_by_date_time. induction l as [|a l IH]; cbn.
  - constructor.
  - now apply insert_appt_sorted.
Qed.

Lemma filter_date_listable (p : Appointment.t -> bool) (d : option date)
  (rows : list Appointment.t) (a : Appointment.t) :
  In a match d with
       | Some d =>
           filter (fun a => Appointment.appointment_date a =? d)
             (filter (fun a => p a
                        && negb (String.eqb (Appointment.status a) "cancelled"))
                rows)
       | None =>
           filter (fun a => p a
                     && negb (String.eqb (Appointment.status a) "cancelled"))
             rows
       end
  <-> In a rows /\ p a = true /\ listable d a.
Proof.
  unfold listable.
  assert (Hst : negb (String.eqb (Appointment.status a) "cancelled") = true
                <-> Appointment.status a <> "cancelled").
  { rewrite negb_true_iff. split.
    - intros H Heq. apply String.eqb_eq in Heq. congruence.
    - intros H. apply String.eqb_neq. exact H. }
  destruct d as [d|]; rewrite ?filter_In, andb_true_iff, Hst, ?Z.eqb_eq; tauto.
Qed.

(** A selection of rows with unique keys has unique keys. *)
Lemma filter_keys_unique (p : Appointment.t -> bool) (rows : list Appointment.t) :
  NoDup (map Appointment.id rows) ->
  NoDup (map Appointment.id (filter p rows)).
Proof.
  intros Hnd. induction rows as [|a rows IH]; cbn [filter]; [constructor|].
  cbn [map] in Hnd. apply NoDup_cons_iff in Hnd as [Ha Hrows].
  destruct (p a); [|now apply IH].
  cbn [map]. constructor; [|now apply IH].
  intros Hin. apply Ha. apply in_map_iff in Hin as (b & Hb & Hin).
  apply filter_In in Hin as [Hin _]. rewrite <- Hb. now apply in_map.
Qed.

Lemma listing_keys_unique (p : Appointment.t -> bool) (d : option date)
  (rows : list Appointment.t) :
  NoDup (map Appointment.id rows) ->
  NoDup (map Appointment.id
           (order_by_date_time
              match d with
              | Some d =>
                  filter (fun a => Appointment.appointment_date a =? d)
                    (filter (fun a => p a
                               && negb (String.eqb (Appointment.status a)
                                          "cancelled"))
                       rows)
              | None =>
                  filter (fun a => p a
                            && negb (String.eqb (Appointment.status a)
                                       "cancelled"))
                    rows
              end)).
Proof.
  intros H.
  eapply Permutation_NoDup;
    [apply Permutation_map; symmetry; apply order_by_date_time_perm|].
  destruct d as [d|]; repeat apply filter_keys_unique; exact H.
Qed.

(** X18. The appointments listed for a shop are its non-cancelled
    appointments, on the date asked for when one is given, and nothing
    else, ordered by date and then by start time; where the keys of the
    table are unique no appointment is listed twice. *)
Theorem get_shop_appointments_listing (s : Session) (shop_id : Z)
  (d : option date) :
  StronglySorted listed_before (get_shop_appointments s shop_id d)
  /\ (forall a : Appointment.t,
        In a (get_shop_appointments s shop_id d)
        <-> In a (appointments s)
            /\ Appointment.shop_id a = shop_id /\ listable d a)
  /\ (NoDup (map Appointment.id (appointments s)) ->
      NoDup (map Appointment.id (get_shop_appointments s shop_id d))).
Proof.
  unfold get_shop_appointments. cbv zeta.
  split; [apply order_by_date_time_sorted|]. split.
  - intros a. split.
    + intros H. apply (Permutation_in _ (order_by_date_time_perm _)) in H.
      apply (filter_date_listable (fun a => Appointment.shop_id a =? shop_id)) in H.
      now rewrite Z.eqb_eq in H.
    + intros H.
      apply (Permutation_in _ (Permutation_sym (order_by_date_time_perm _))).
      apply (filter_date_listable (fun a => Appointment.shop_id a =? shop_id)).
      now rewrite Z.eqb_eq.
  - apply (listing_keys_unique (fun a => Appointment.shop_id a =? shop_id)).
Qed.

(** X19. The appointments listed for an employee are the non-cancelled
    appointments of that employee, on the date asked for when one is given,
    and nothing else, ordered by date and then by start time; where the keys
    of the table are unique no appointment is listed twice. *)
Theorem get_employee_appointments_listing (s : Session) (employee_id : Z)
  (d : option date) :
  StronglySorted listed_before (get_employee_appointments s employee_id d)
  /\ (forall a : Appointment.t,
        In a (get_employee_appointments s employee_id d)
        <-> In a (appointments s)
            /\ Appointment.employee_id a = employee_id /\ listable d a)
  /\ (NoDup (map Appointment.id (appointments s)) ->
      NoDup (map Appointment.id (get_employee_appointments s employee_id d))).
Proof.
  unfold get_employee_appointments. cbv zeta.
  split; [apply order_by_date_time_sorted|]. split.
  - intros a. split.
    + intros H. apply (Permutation_in _ (order_by_date_time_perm _)) in H.
      apply (filter_date_listable
               (fun a => Appointment.employee_id a =? employee_id)) in H.
      now rewrite Z.eqb_eq in H.
    + intros H.
      apply (Permutation_in _ (Permutation_sym (order_by_date_time_perm _))).
      apply (filter_date_listable
               (fun a => Appointment.employee_id a =? employee_id)).
      now rewrite Z.eqb_eq.
  - apply (listing_keys_unique
             (fun a => Appointment.employee_id a =? employee_id)).
Qed.

Lemma listed_on_date (s : Session) (employee_id : Z) (d : date)
  (a : Appointment.t) :
  In a (get_employee_appointments s employee_id (Some d))
  <-> In a (appointments_on s employee_id d).
Proof.
  unfold get_employee_appointments. cbv zeta. split.
  - intros H. apply (Permutation_in _ (order_by_date_time_perm _)) in H.
    unfold appointments_on. rewrite !filter_In in *.
    destruct H as [[Hin Hp] Hd]. split; [exact Hin|].
    apply andb_true_iff in Hp as [He Hs]. now rewrite He, Hd, Hs.
  - intros H.
    apply (Permutation_in _ (Permutation_sym (order_by_date_time_perm _))).
    unfold appointments_on in H. rewrite !filter_In in *.
    destruct H as [Hin Hp]. apply andb_true_iff in Hp as [Hp Hs].
    apply andb_true_iff in Hp as [He Hd]. now rewrite He, Hd, Hs.
Qed.

(** X20. The two views of a day agree: no slot offered for an employee on
    a date overlaps an appointment listed for that employee on that date. *)
Theorem offered_slots_clear_of_listing (s : Session) (employee_id : Z)
  (d : date) (slots : list Slot) (sl : Slot) (a : Appointment.t) :
  valid_session s ->
  1 <= d < max_ordinal ->
  get_employee_availability s employee_id d = Returned slots ->
  In sl slots ->
  In a (get_employee_appointments s employee_id (Some d)) ->
  overlaps (slot_start_time sl) (slot_end_time sl)
    (Appointment.start_time a) (Appointment.end_time a) = false.
Proof.
  intros Hv Hd Hrun Hsl Ha. apply listed_on_date in Ha.
  apply (availability_membership s employee_id d slots Hv Hd Hrun) in Hsl
    as (employee & k & _ & _ & _ & -> & _ & Hfree).
  specialize (Hfree a Ha). cbn [slot_start_time slot_end_time].
  unfold overlaps. apply negb_false_iff, orb_true_iff.
  destruct Hfree as [H|H]; [left|right]; apply Z.leb_le; exact H.
Qed.

Lemma offered_slots_clear_of_listing_witness :
  exists a : Appointment.t,
    get_employee_appointments shop2 3 (Some monday) = [a]
    /\ Appointment.end_time a = hm 9 30
    /\ overlaps (hm 9 30) (hm 10 0)
         (Appointment.start_time a) (Appointment.end_time a) = false.
Proof.
  eexists. split; [reflexivity|]. split; [reflexivity|].
  apply (offered_slots_clear_of_listing shop2 3 monday
           [mkSlot (hm 9 30) (hm 10 0) true] (mkSlot (hm 9 30) (hm 10 0) true)).
  - unfold valid_session, valid_time, minutes_per_day.
    repeat constructor; cbn; lia.
  - unfold monday, max_ordinal. lia.
  - reflexivity.
  - now left.
  - now left.
Defined.

(** X21. A cancelled appointment leaves the listing and takes nothing with
    it: where the keys of the table are unique, the shop's listing after
    [cancel_appointment] holds the appointments listed before under another
    key, and only those. *)
Theorem cancelled_appointment_unlisted (s : Session) (appointment_id : Z)
  (shop_id : Z) (d : option date) (b : Appointment.t) :
  NoDup (map Appointment.id (appointments s)) ->
  In b (get_shop_appointments (snd (cancel_appointment s appointment_id))
          shop_id d)
  <-> In b (get_shop_appointments s shop_id d)
      /\ Appointment.id b <> appointment_id.
Proof.
  intros Hnd.
  assert (Hmem : forall s0 a,
            In a (get_shop_appointments s0 shop_id d)
            <-> In a (appointments s0)
                /\ Appointment.shop_id a = shop_id /\ listable d a).
  { intros s0 a. unfold get_shop_appointments. cbv zeta. split.
    - intros H. apply (Permutation_in _ (order_by_date_time_perm _)) in H.
      apply (filter_date_listable (fun a => Appointment.shop_id a =? shop_id)) in H.
      now rewrite Z.eqb_eq in H.
    - intros H.
      apply (Permutation_in _ (Permutation_sym (order_by_date_time_perm _))).
      apply (filter_date_listable (fun a => Appointment.shop_id a =? shop_id)).
      now rewrite Z.eqb_eq. }
  rewrite !Hmem.
  assert (Happ : appointments (snd (cancel_appointment s appointment_id))
                 = map (fun a => if Appointment.id a =? appointment_id
                                 then set_cancelled a else a) (appointments s)).
  { unfold cancel_appointment. destruct (find _ _) eqn:Hf; cbn [snd appointments].
    - now apply cancel_row_unique.
    - rewrite <- (cancel_row_unique appointment_id _ Hnd).
      symmetry. apply cancel_row_absent. intros a Hin.
      pose proof (find_none _ _ Hf a Hin) as Hne. cbn in Hne.
      now apply Z.eqb_neq in Hne. }
  rewrite Happ, in_map_iff. split.
  - intros ((a & Hab & Hin) & Hshop & Hlist).
    destruct (Appointment.id a =? appointment_id) eqn:E.
    + subst b. destruct Hlist as [Hst _]. now destruct Hst.
    + subst b. apply Z.eqb_neq in E. auto.
  - intros ((Hin & Hshop & Hlist) & Hne).
    split; [|auto]. exists b. split; [|exact Hin].
    apply Z.eqb_neq in Hne. now rewrite Hne.
Qed.

Lemma cancelled_appointment_unlisted_witness :
  (exists b, get_shop_appointments shop3 1 None = [b] /\ Appointment.id b = 1)
  /\ forall b, ~ In b (get_shop_appointments (snd (cancel_appointment shop3 1))
                         1 None).
Proof.
  split; [eexists; split; reflexivity|].
  intros b Hb.
  apply (cancelled_appointment_unlisted shop3 1 1 None b) in Hb
    as [[<-|[]] Hne].
  - now apply Hne.
  - repeat constructor. intros [].
Defined.

(** ** The cancel endpoint *)

(** X22. [DELETE /api/bookings/{id}] answers 404 exactly when no
    appointment has that key, and then changes nothing.  Otherwise it
    answers with a body, an appointment under that key is cancelled, and the
    same request sent again is answered with the same body: an appointment
    already cancelled is not reported as missing.  The handler lets no
    exception through. *)
Theorem cancel_endpoint_answers (s : Session) (appointment_id : Z) :
  match cancel_appointment_endpoint s appointment_id with
  | (Body message, s') =>
      In appointment_id (map Appointment.id (appointments s))
      /\ (exists a : Appointment.t,
            In a (appointments s')
            /\ Appointment.id a = appointment_id
            /\ Appointment.status a = "cancelled")
      /\ fst (cancel_appointment_endpoint s' appointment_id) = Body message
  | (HTTPException status_code detail, s') =>
      status_code = 404
      /\ ~ In appointment_id (map Appointment.id (appointments s))
      /\ s' = s
  | (Uncaught e, s') => False
  end.
Proof.
  unfold cancel_appointment_endpoint, cancel_appointment.
  destruct (find (fun a => Appointment.id a =? appointment_id) (appointments s))
    as [a|] eqn:Hf; cbn [negb].
  - pose proof (cancel_row_find _ _ _ Hf) as Hf'.
    apply find_some in Hf as [Hin Hid]. apply Z.eqb_eq in Hid.
    split; [rewrite <- Hid; now apply in_map|]. split.
    + exists (set_cancelled a). apply find_some in Hf' as [Hin' _].
      cbn [appointments]. split; [exact Hin'|]. split; [exact Hid | reflexivity].
    + cbn [appointments]. now rewrite Hf'.
  - split; [reflexivity|]. split; [|reflexivity].
    intros Hin. apply in_map_iff in Hin as (a & Hid & Hin).
    pose proof (find_none _ _ Hf a Hin) as Hne. cbn in Hne.
    apply Z.eqb_neq in Hne. contradiction.
Qed.

(** ** A new employee *)

Lemma filter_none {A : Type} (p : A -> bool) (l : list A) :
  (forall a, In a l -> p a = false) -> filter p l = [].
Proof.
  induction l as [|a l IH]; cbn; intros H; [reflexivity|].
  rewrite (H a (or_introl eq_refl)). apply IH. intros b Hb. apply H. now right.
Qed.

(** X23. An employee just added to a session built by the operations has
    an empty calendar: on a working day every half hour from the start of
    work that fits before its end is offered, and nothing else; on another
    day nothing is offered. *)
Theorem new_employee_calendar_free (s : Session) (shop_id : Z)
  (name phone working_days start_time end_time : string)
  (employee : Employee.t) (s' : Session) (d : date) :
  reachable s ->
  add_employee s shop_id name phone working_days start_time end_time
  = (Returned employee, s') ->
  1 <= d < max_ordinal ->
  exists slots : list Slot,
    get_employee_availability s' (Employee.id employee) d = Returned slots
    /\ forall sl : Slot,
         In sl slots
         <-> str_in (strftime_a d) (split_comma working_days) = true
             /\ exists k : Z,
                  0 <= k
                  /\ sl = mkSlot (Employee.start_time employee + 30 * k)
                                 (Employee.start_time employee + 30 * k + 30)
                                 true
                  /\ Employee.start_time employee + 30 * k + 30
                     <= Employee.end_time employee.
Proof.
  intros Hr Hadd Hd.
  pose proof (reachable_well_formed s Hr) as Hwf.
  pose proof (well_formed_add_employee s shop_id name phone working_days
                start_time end_time Hwf) as Hwf'.
  rewrite Hadd in Hwf'. cbn [snd] in Hwf'.
  destruct Hwf' as (Hv' & _ & _). destruct Hwf as (_ & _ & Happ).
  unfold add_employee in Hadd.
  destruct (strptime_HM start_time) as [st|]; [|discriminate].
  destruct (strptime_HM end_time) as [en|]; [|discriminate].
  injection Hadd as <- <-.
  set (e := Employee.mk (next_id (map Employee.id (employees s))) shop_id name
              true working_days st en) in *.
  set (s' := mkSession (employees s ++ [e]) (customers s) (services s)
               (appointments s)) in *.
  assert (He : get_employee s' (Employee.id e) = Some e).
  { unfold get_employee, s'. cbn [employees Employee.id e].
    apply (find_id_fresh Employee.id (employees s)). reflexivity. }
  assert (Hnone : appointments_on s' (Employee.id e) d = []).
  { unfold appointments_on, s'. cbn [appointments].
    apply filter_none. intros a Ha.
    rewrite Forall_forall in Happ.
    destruct (Happ a Ha) as (_ & _ & (e0 & He0 & _) & _).
    unfold get_employee in He0. apply find_some in He0 as [Hin Hid].
    apply Z.eqb_eq in Hid.
    pose proof (next_id_above (map Employee.id (employees s)) (Employee.id e0)
                  (in_map Employee.id _ _ Hin)) as Hlt.
    replace (Appointment.employee_id a =? Employee.id e) with false;
      [reflexivity|].
    symmetry. apply Z.eqb_neq. cbn [Employee.id e]. lia. }
  destruct (availability_total s' (Employee.id e) d Hv' Hd) as (slots & Hrun & _).
  exists slots. split; [exact Hrun|]. intros sl.
  rewrite (availability_membership s' (Employee.id e) d slots Hv' Hd Hrun sl).
  rewrite He, Hnone. cbn [Employee.working_days Employee.start_time
                          Employee.end_time e]. split.
  - intros (e1 & k & [= <-] & Hday & Hk & Hsl & Hle & _).
    split; [exact Hday|]. exists k. auto.
  - intros (Hday & k & Hk & Hsl & Hle).
    exists e, k. split; [reflexivity|]. split; [exact Hday|].
    split; [exact Hk|]. split; [exact Hsl|]. split; [exact Hle|].
    intros a [].
Qed.

Lemma new_employee_calendar_free_witness :
  exists (employee : Employee.t) (s' : Session) (slots : list Slot),
    add_employee shop3 1 "Sarah Williams" "555-0102" "Mon,Tue" "10:00" "11:00"
    = (Returned employee, s')
    /\ get_employee_availability s' (Employee.id employee) monday = Returned slots
    /\ In (mkSlot (hm 10 30) (hm 11 0) true) slots.
Proof.
  eexists. eexists.
  destruct (new_employee_calendar_free shop3 1 "Sarah Williams" "555-0102"
              "Mon,Tue" "10:00" "11:00" _ _ monday shop3_reachable eq_refl)
    as (slots & Hrun & Hin).
  - unfold monday, max_ordinal. lia.
  - exists slots. split; [reflexivity|]. split; [exact Hrun|].
    apply Hin. split; [reflexivity|]. exists 1. split; [lia|].
    split; [reflexivity|]. cbn. unfold hm. lia.
Defined.
